(** * gpu_temp_hwmon: a shallow embedding of the hwmon provider

    The development follows [gpu_temp_hwmon.c]: the three sysfs [show]
    callbacks, the platform driver with its probe, and module init/exit.
    Kernel services the module calls (VFS, [kstrtoint], [sprintf], the
    platform bus, hwmon) are described by small executable models placed
    before the module's own code. *)

From Stdlib Require Import ZArith List Ascii String Lia Bool.
From stdpp Require Import base gmap strings list.
Import ListNotations.

Local Open Scope Z_scope.

(** ** Bytes and C strings *)

Module CStr.

Definition NUL : ascii := "000"%char.
Definition LF : ascii := "010"%char.

Definition code (c : ascii) : Z := Z.of_N (N_of_ascii c).

(** [*s] for a buffer given as the list of its bytes. *)
Definition deref (s : list ascii) : ascii := hd NUL s.

(** A string literal of the source, as bytes (without its terminator). *)
Definition lit (s : string) : list ascii := list_ascii_of_string s.

Definition isdigit (c : ascii) : bool := (48 <=? code c) && (code c <=? 57).

End CStr.
Import CStr.

(** ** Fixed-width integers *)

Module Int.

Definition ULLONG_MAX : Z := 2 ^ 64 - 1.
Definition INT_MIN : Z := - 2 ^ 31.
Definition INT_MAX : Z := 2 ^ 31 - 1.

Definition u64 (x : Z) : Z := x mod 2 ^ 64.

(** Casts to a signed type keep the low bits (two's complement). *)
Definition s64 (x : Z) : Z :=
  let r := x mod 2 ^ 64 in if r <? 2 ^ 63 then r else r - 2 ^ 64.
Definition s32 (x : Z) : Z :=
  let r := x mod 2 ^ 32 in if r <? 2 ^ 31 then r else r - 2 ^ 32.

Definition in_int (v : Z) : Prop := INT_MIN <= v <= INT_MAX.

End Int.
Import Int.

(** ** errno values used by the kernel services below *)

Module Errno.
Definition ENOENT : Z := 2.
Definition EINVAL : Z := 22.
Definition ERANGE : Z := 34.
Definition MAX_ERRNO : Z := 4095.
End Errno.
Import Errno.

(** ** lib/kstrtox.c *)

Module Kstrtox.

Definition KSTRTOX_OVERFLOW : Z := 2 ^ 31.

Definition _tolower (c : Z) : Z := Z.lor c 32.

(** The value of one character as a digit, before the comparison with
    the base: ['0'..'9'], then ['a'..'f'] after lowering. *)
Definition digit_val (c : ascii) : option Z :=
  let c := code c in
  let lc := _tolower c in
  if (48 <=? c) && (c <=? 57) then Some (c - 48)
  else if (97 <=? lc) && (lc <=? 102) then Some (lc - 97 + 10)
  else None.

(** [_parse_integer]: the loop over the leading digits.  [res] wraps at
    64 bits; [rv] counts the characters taken and carries the overflow
    flag.  The buffer ends with its terminator, which is no digit. *)
Fixpoint _parse_integer (s : list ascii) (base : Z) (res rv : Z) : Z * Z :=
  match s with
  | [] => (res, rv)
  | c :: s' =>
      match digit_val c with
      | None => (res, rv)
      | Some val =>
          if base <=? val then (res, rv)
          else
            let rv :=
              if negb (Z.land res (u64 (Z.shiftl ULLONG_MAX 60)) =? 0)
              then if (ULLONG_MAX - val) / base <? res
                   then Z.lor rv KSTRTOX_OVERFLOW else rv
              else rv in
            _parse_integer s' base (u64 (res * base + val)) (rv + 1)
      end
  end.

(** The out-parameter [*res] is passed in and returned: a failing call
    leaves it as it was. *)
Definition _kstrtoull (s : list ascii) (base : Z) (res : Z) : Z * Z :=
  (* _parse_integer_fixup_radix changes nothing unless base is 0 or 16 *)
  let '(_res, rv) := _parse_integer s base 0 0 in
  if negb (Z.land rv KSTRTOX_OVERFLOW =? 0) then (- ERANGE, res)
  else if rv =? 0 then (- EINVAL, res)
  else
    let s := skipn (Z.to_nat rv) s in
    let s := if Ascii.eqb (deref s) LF then tl s else s in
    if negb (Ascii.eqb (deref s) NUL) then (- EINVAL, res)
    else (0, _res).

Definition kstrtoull (s : list ascii) (base : Z) (res : Z) : Z * Z :=
  let s := if Ascii.eqb (deref s) "+" then tl s else s in
  _kstrtoull s base res.

Definition kstrtoll (s : list ascii) (base : Z) (res : Z) : Z * Z :=
  if Ascii.eqb (deref s) "-" then
    let '(rv, tmp) := _kstrtoull (tl s) base 0 in
    if rv <? 0 then (rv, res)
    else if 0 <? s64 (- tmp) then (- ERANGE, res)
    else (0, s64 (- tmp))
  else
    let '(rv, tmp) := kstrtoull s base 0 in
    if rv <? 0 then (rv, res)
    else if s64 tmp <? 0 then (- ERANGE, res)
    else (0, s64 tmp).

Definition kstrtoint (s : list ascii) (base : Z) (res : Z) : Z * Z :=
  let '(rv, tmp) := kstrtoll s base 0 in
  if rv <? 0 then (rv, res)
  else if negb (tmp =? s32 tmp) then (- ERANGE, res)
  else (0, tmp).

End Kstrtox.
Import Kstrtox.

(** ** sprintf, for the two shapes of format the module uses *)

Module Printf.

(** Decimal digits of a non-negative number, least significant first,
    as the kernel's [put_dec] leaves them in its scratch buffer. *)
Fixpoint put_dec (fuel : nat) (n : Z) : list ascii :=
  match fuel with
  | O => []
  | S fuel =>
      let d := ascii_of_N (Z.to_N (48 + n mod 10)) in
      if n <? 10 then [d] else d :: put_dec fuel (n / 10)
  end.

(** [%d]: at most 20 digits are ever needed for a 64-bit value. *)
Definition fmt_d (v : Z) : list ascii :=
  (if v <? 0 then ["-"%char] else []) ++ rev (put_dec 20 (Z.abs v)).

(** The format is copied, each [%d] replaced by the next argument. *)
Fixpoint vformat (fmt : list ascii) (args : list Z) : list ascii :=
  match fmt with
  | [] => []
  | c :: fmt' =>
      if Ascii.eqb c "%" then
        match fmt', args with
        | d :: fmt'', v :: args' =>
            if Ascii.eqb d "d" then fmt_d v ++ vformat fmt'' args'
            else c :: vformat fmt' args
        | _, _ => c :: vformat fmt' args
        end
      else c :: vformat fmt' args
  end.

(** [sprintf(buf, fmt, ...)]: the text stored at [buf] and the count
    returned. *)
Definition sprintf (fmt : list ascii) (args : list Z) : list ascii * Z :=
  let text := vformat fmt args in (text, Z.of_nat (length text)).

End Printf.
Import Printf.

(** ** The kernel state the module can observe or change *)

(** Pointers that may carry an error ([ERR_PTR]) or be [NULL].  The
    services below build [ERR_PTR e] only from a negated errno, taken to
    be at most [MAX_ERRNO], so that [IS_ERR] holds of every [ERR_PTR e]. *)
Inductive kptr (A : Type) : Type :=
| NULL
| ERR_PTR (e : Z)
| Ptr (a : A).
Arguments NULL {A}.
Arguments ERR_PTR {A} e.
Arguments Ptr {A} a.

Definition IS_ERR {A} (p : kptr A) : bool :=
  match p with ERR_PTR _ => true | _ => false end.

(** [PTR_ERR] is applied by the module only under [IS_ERR]. *)
Definition PTR_ERR {A} (p : kptr A) : Z :=
  match p with ERR_PTR e => e | _ => 0 end.

Definition PTR_ERR_OR_ZERO {A} (p : kptr A) : Z :=
  if IS_ERR p then PTR_ERR p else 0.

(** What lives at a path. *)
Inductive inode : Type :=
| Regular (data : list ascii)
| Denied (errno : positive)    (* opening fails with -errno *)
| Faulty (errno : positive).   (* opens; reading fails with -errno *)

Record file : Type := File { f_path : string; f_inode : inode; f_flags : Z }.

Inductive vfs_event : Type :=
| EvOpen (path : string) (flags mode : Z) (ok : bool)
| EvRead (path : string) (count pos : Z)
| EvClose (path : string).

Record platform_device : Type := PlatformDevice { pd_name : string; pd_id : Z }.

Record hwmon_device : Type :=
  HwmonDevice { hw_parent : platform_device; hw_name : string;
                hw_attrs : list string }.

#[global] Instance platform_device_eq_dec : EqDecision platform_device.
Proof. solve_decision. Defined.

(** Outcomes the host decides: [None] is success, [Some e] is failure
    with [-e]. *)
Record host : Type :=
  Host { drv_reg : option positive; dev_reg : option positive;
         hwmon_reg : option positive }.

Record world : Type := World {
  vfs : gmap string inode;          (* the file system, by path *)
  nr_open : nat;                    (* struct file references held *)
  trace : list vfs_event;           (* VFS calls made so far *)
  drivers : list string;            (* registered platform drivers *)
  devices : list platform_device;   (* registered platform devices *)
  hwmons : list hwmon_device;       (* registered hwmon devices *)
  pdev : kptr platform_device;      (* static struct platform_device *pdev *)
  hwmon_dev : kptr hwmon_device;    (* static struct device *hwmon_dev *)
  klog : list (list ascii);         (* printk output *)
  host_cfg : host
}.

(** ** State passing *)

Definition K (A : Type) : Type := world -> A * world.

Definition kret {A} (a : A) : K A := fun w => (a, w).
Definition kbind {A B} (m : K A) (k : A -> K B) : K B :=
  fun w => let '(a, w') := m w in k a w'.
Definition kget : K world := fun w => (w, w).
Definition kmodify (f : world -> world) : K unit := fun w => (tt, f w).

Notation "'do' x <- m ; k" := (kbind m (fun x => k))
  (at level 10, x name, m at level 100, k at level 200).
Notation "'do' ' p <- m ; k" := (kbind m (fun x => let 'p := x in k))
  (at level 10, p pattern, m at level 100, k at level 200).

Definition set_vfs (v : gmap string inode) (w : world) : world :=
  World v (nr_open w) (trace w) (drivers w) (devices w) (hwmons w)
        (pdev w) (hwmon_dev w) (klog w) (host_cfg w).
Definition set_nr_open (n : nat) (w : world) : world :=
  World (vfs w) n (trace w) (drivers w) (devices w) (hwmons w)
        (pdev w) (hwmon_dev w) (klog w) (host_cfg w).
Definition set_trace (t : list vfs_event) (w : world) : world :=
  World (vfs w) (nr_open w) t (drivers w) (devices w) (hwmons w)
        (pdev w) (hwmon_dev w) (klog w) (host_cfg w).
Definition set_drivers (d : list string) (w : world) : world :=
  World (vfs w) (nr_open w) (trace w) d (devices w) (hwmons w)
        (pdev w) (hwmon_dev w) (klog w) (host_cfg w).
Definition set_devices (d : list platform_device) (w : world) : world :=
  World (vfs w) (nr_open w) (trace w) (drivers w) d (hwmons w)
        (pdev w) (hwmon_dev w) (klog w) (host_cfg w).
Definition set_hwmons (l : list hwmon_device) (w : world) : world :=
  World (vfs w) (nr_open w) (trace w) (drivers w) (devices w) l
        (pdev w) (hwmon_dev w) (klog w) (host_cfg w).
Definition set_pdev (p : kptr platform_device) (w : world) : world :=
  World (vfs w) (nr_open w) (trace w) (drivers w) (devices w) (hwmons w)
        p (hwmon_dev w) (klog w) (host_cfg w).
Definition set_hwmon_dev (p : kptr hwmon_device) (w : world) : world :=
  World (vfs w) (nr_open w) (trace w) (drivers w) (devices w) (hwmons w)
        (pdev w) p (klog w) (host_cfg w).
Definition set_klog (l : list (list ascii)) (w : world) : world :=
  World (vfs w) (nr_open w) (trace w) (drivers w) (devices w) (hwmons w)
        (pdev w) (hwmon_dev w) l (host_cfg w).

(** ** fs: filp_open, kernel_read, filp_close *)

Module Fs.

Definition O_RDONLY : Z := 0.
Definition O_WRONLY : Z := 1.
Definition O_ACCMODE : Z := 3.
Definition O_CREAT : Z := 64.
Definition O_TRUNC : Z := 512.

Definition has_flag (flags bit : Z) : bool := negb (Z.land flags bit =? 0).

Definition log_event (e : vfs_event) : K unit :=
  kmodify (fun w => set_trace (trace w ++ [e]) w).

Definition grab (path : string) (i : inode) (flags : Z) : K (kptr file) :=
  do _ <- kmodify (fun w => set_nr_open (S (nr_open w)) w);
  kret (Ptr (File path i flags)).

(** A missing path is created only under [O_CREAT]; an existing regular
    file is emptied only when opened for writing with [O_TRUNC]. *)
Definition filp_open (path : string) (flags mode : Z) : K (kptr file) :=
  do w <- kget;
  match vfs w !! path with
  | None =>
      if has_flag flags O_CREAT then
        do _ <- kmodify (fun w => set_vfs (<[path := Regular []]> (vfs w)) w);
        do _ <- log_event (EvOpen path flags mode true);
        grab path (Regular []) flags
      else
        do _ <- log_event (EvOpen path flags mode false);
        kret (ERR_PTR (- ENOENT))
  | Some (Denied e) =>
      do _ <- log_event (EvOpen path flags mode false);
      kret (ERR_PTR (Z.neg e))
  | Some (Regular data) =>
      do _ <- log_event (EvOpen path flags mode true);
      if has_flag flags O_TRUNC && negb (Z.land flags O_ACCMODE =? O_RDONLY) then
        do _ <- kmodify (fun w => set_vfs (<[path := Regular []]> (vfs w)) w);
        grab path (Regular []) flags
      else grab path (Regular data) flags
  | Some (Faulty e) =>
      do _ <- log_event (EvOpen path flags mode true);
      grab path (Faulty e) flags
  end.

(** [kernel_read(file, buf, count, &pos)]: the count returned, the bytes
    stored at the start of [buf], and the new [pos]. *)
Definition kernel_read (fp : kptr file) (count : Z) (pos : Z)
  : K (Z * list ascii * Z) :=
  match fp with
  | Ptr f =>
      do _ <- log_event (EvRead (f_path f) count pos);
      if Z.land (f_flags f) O_ACCMODE =? O_WRONLY then kret (- EINVAL, [], pos)
      else
        match f_inode f with
        | Regular data =>
            let chunk := take (Z.to_nat count) (drop (Z.to_nat pos) data) in
            let n := Z.of_nat (length chunk) in
            kret (n, chunk, pos + n)
        | Denied e | Faulty e => kret (Z.neg e, [], pos)
        end
  | _ => kret (- EINVAL, [], pos)
  end.

Definition filp_close (fp : kptr file) (id : kptr unit) : K Z :=
  match fp with
  | Ptr f =>
      do _ <- log_event (EvClose (f_path f));
      do _ <- kmodify (fun w => set_nr_open (Nat.pred (nr_open w)) w);
      kret 0
  | _ => kret 0
  end.

End Fs.
Import Fs.

(** ** The platform bus and hwmon *)

Record platform_driver : Type :=
  PlatformDriver { drv_name : string; drv_probe : platform_device -> K Z }.

Definition printk (msg : list ascii) : K unit :=
  kmodify (fun w => set_klog (klog w ++ [msg]) w).

Module Platform.

(** Device-managed resources of [dev] are released when its driver is
    detached or its probe fails. *)
Definition devres_release_all (dev : platform_device) : K unit :=
  kmodify (fun w =>
    set_hwmons (filter (fun hd => hw_parent hd <> dev) (hwmons w)) w).

Definition really_probe (drv : platform_driver) (dev : platform_device)
  : K unit :=
  do r <- drv_probe drv dev;
  if r =? 0 then kret tt else devres_release_all dev.

Fixpoint driver_attach (drv : platform_driver) (devs : list platform_device)
  : K unit :=
  match devs with
  | [] => kret tt
  | dev :: devs =>
      do _ <- (if decide (pd_name dev = drv_name drv)
               then really_probe drv dev else kret tt);
      driver_attach drv devs
  end.

Fixpoint driver_detach (devs : list platform_device) : K unit :=
  match devs with
  | [] => kret tt
  | dev :: devs => do _ <- devres_release_all dev; driver_detach devs
  end.

(** A second driver of the same name is refused with [-EBUSY] (16). *)
Definition platform_driver_register (drv : platform_driver) : K Z :=
  do w <- kget;
  match drv_reg (host_cfg w) with
  | Some e => kret (Z.neg e)
  | None =>
      if decide (drv_name drv ∈ drivers w) then kret (- 16)
      else
        do _ <- kmodify (fun w => set_drivers (drv_name drv :: drivers w) w);
        do _ <- driver_attach drv (devices w);
        kret 0
  end.

Definition platform_driver_unregister (drv : platform_driver) : K unit :=
  do w <- kget;
  do _ <- driver_detach
            (filter (fun dev => pd_name dev = drv_name drv) (devices w));
  kmodify (fun w =>
    set_drivers (filter (fun n => n <> drv_name drv) (drivers w)) w).

Section Bus.

(** The driver structure a registered name stands for. *)
Variable driver_of : string -> option platform_driver.

(** A second device of the same name and id is refused with
    [-EEXIST] (17).  A new device is offered to the driver of its
    name; the result of the probe is not reported to the caller. *)
Definition platform_device_register_simple (name : string) (id : Z)
    (res : kptr unit) (num : Z) : K (kptr platform_device) :=
  do w <- kget;
  match dev_reg (host_cfg w) with
  | Some e => kret (ERR_PTR (Z.neg e))
  | None =>
      let dev := PlatformDevice name id in
      if decide (dev ∈ devices w) then kret (ERR_PTR (- 17))
      else
        do _ <- kmodify (fun w => set_devices (dev :: devices w) w);
        do _ <- (if decide (name ∈ drivers w) then
                   match driver_of name with
                   | Some drv => really_probe drv dev
                   | None => kret tt
                   end
                 else kret tt);
        kret (Ptr dev)
  end.

End Bus.

(** [NULL] and error pointers are ignored. *)
Definition platform_device_unregister (p : kptr platform_device) : K unit :=
  match p with
  | Ptr dev =>
      do _ <- devres_release_all dev;
      kmodify (fun w =>
        set_devices (filter (fun d => d <> dev) (devices w)) w)
  | _ => kret tt
  end.

End Platform.
Import Platform.

(** ** The module: gpu_temp_hwmon.c *)

Definition DRIVER_NAME : string := "gpu_temp_hwmon".
Definition TEMP_FILE : string := "/tmp/gpu_max_temp".

Definition S_IRUGO : Z := 292.

Record device_attribute : Type :=
  DeviceAttribute { attr_name : string; attr_mode : Z }.

(** What a [show] callback hands back: the text stored in [buf] and the
    [ssize_t] it returns. *)
Definition shown : Type := list ascii * Z.

Definition sizeof_temp_str : Z := 16.

Definition temp1_input_show (dev : hwmon_device) (attr : device_attribute)
  : K shown :=
  let temp_millidegrees := 0 in
  let pos := 0 in
  (* Read temperature from file *)
  do file <- filp_open TEMP_FILE O_RDONLY 0;
  if IS_ERR file then
    kret (sprintf (lit "0" ++ [LF]) [])
  else
    do '(ret, temp_str, pos) <-
       kernel_read file (sizeof_temp_str - 1) pos;
    let temp_millidegrees :=
      if 0 <? ret then
        (* temp_str[ret] = '\0'; what the array holds past the
           terminator does not matter, see [kstrtoint_tail] *)
        let temp_str := temp_str ++ [NUL] in
        let '(ret, temp_millidegrees) :=
          kstrtoint temp_str 10 temp_millidegrees in
        if ret <? 0 then 0 else temp_millidegrees
      else temp_millidegrees in
    do _ <- filp_close file NULL;
    kret (sprintf (lit "%d" ++ [LF]) [temp_millidegrees]).

Definition temp1_max_show (dev : hwmon_device) (attr : device_attribute)
  : K shown :=
  kret (sprintf (lit "90000" ++ [LF]) []).

Definition temp1_crit_show (dev : hwmon_device) (attr : device_attribute)
  : K shown :=
  kret (sprintf (lit "95000" ++ [LF]) []).

Record sensor_device_attribute : Type :=
  SensorDeviceAttr {
    dev_attr : device_attribute;
    show : hwmon_device -> device_attribute -> K shown;
    index : Z
  }.

Definition sensor_dev_attr_temp1_input : sensor_device_attribute :=
  SensorDeviceAttr (DeviceAttribute "temp1_input" S_IRUGO) temp1_input_show 0.
Definition sensor_dev_attr_temp1_max : sensor_device_attribute :=
  SensorDeviceAttr (DeviceAttribute "temp1_max" S_IRUGO) temp1_max_show 0.
Definition sensor_dev_attr_temp1_crit : sensor_device_attribute :=
  SensorDeviceAttr (DeviceAttribute "temp1_crit" S_IRUGO) temp1_crit_show 0.

Definition gpu_temp_attrs : list sensor_device_attribute :=
  [ sensor_dev_attr_temp1_input;
    sensor_dev_attr_temp1_max;
    sensor_dev_attr_temp1_crit ].

Definition gpu_temp_groups : list (list sensor_device_attribute) :=
  [ gpu_temp_attrs ].

Definition devm_hwmon_device_register_with_groups
    (dev : platform_device) (name : string) (drvdata : kptr unit)
    (groups : list (list sensor_device_attribute)) : K (kptr hwmon_device) :=
  do w <- kget;
  match hwmon_reg (host_cfg w) with
  | Some e => kret (ERR_PTR (Z.neg e))
  | None =>
      let hd :=
        HwmonDevice dev name
          (map (fun a => attr_name (dev_attr a)) (concat groups)) in
      do _ <- kmodify (fun w => set_hwmons (hd :: hwmons w) w);
      kret (Ptr hd)
  end.

Definition gpu_temp_probe (pd : platform_device) : K Z :=
  do p <- devm_hwmon_device_register_with_groups pd "gpu_max_temp"
            NULL gpu_temp_groups;
  do _ <- kmodify (set_hwmon_dev p);
  kret (PTR_ERR_OR_ZERO p).

Definition gpu_temp_driver : platform_driver :=
  PlatformDriver DRIVER_NAME gpu_temp_probe.

(** On the platform bus the name [DRIVER_NAME] stands for this driver. *)
Definition driver_table (name : string) : option platform_driver :=
  if decide (name = DRIVER_NAME) then Some gpu_temp_driver else None.

Definition gpu_temp_init : K Z :=
  do ret <- platform_driver_register gpu_temp_driver;
  if negb (ret =? 0) then kret ret
  else
    do p <- platform_device_register_simple driver_table DRIVER_NAME (-1) NULL 0;
    do _ <- kmodify (set_pdev p);
    if IS_ERR p then
      do _ <- platform_driver_unregister gpu_temp_driver;
      kret (PTR_ERR p)
    else
      do _ <- printk (lit "GPU temperature hwmon module loaded" ++ [LF]);
      kret 0.

Definition gpu_temp_exit : K unit :=
  do w <- kget;
  do _ <- platform_device_unregister (pdev w);
  do _ <- platform_driver_unregister gpu_temp_driver;
  printk (lit "GPU temperature hwmon module unloaded" ++ [LF]).

(** ** The callback with its stack array *)

(** [temp1_input_show] once more, with [char temp_str[16]] kept as an
    array: [temp_str] is what the stack holds on entry, [kernel_read]
    stores the bytes it read at the start of the array, and
    [temp_str[ret] = 0] is an update in place (which, as for any store
    through an index, changes nothing when the index is outside the
    array).  [kstrtoint] is handed the whole array. *)
Definition temp1_input_show_raw (temp_str : list ascii)
    (dev : hwmon_device) (attr : device_attribute) : K shown :=
  let temp_millidegrees := 0 in
  let pos := 0 in
  do file <- filp_open TEMP_FILE O_RDONLY 0;
  if IS_ERR file then
    kret (sprintf (lit "0" ++ [LF]) [])
  else
    do '(ret, bytes, pos) <-
       kernel_read file (sizeof_temp_str - 1) pos;
    let temp_str := bytes ++ drop (length bytes) temp_str in
    let temp_millidegrees :=
      if 0 <? ret then
        let temp_str := <[Z.to_nat ret := NUL]> temp_str in
        let '(ret, temp_millidegrees) :=
          kstrtoint temp_str 10 temp_millidegrees in
        if ret <? 0 then 0 else temp_millidegrees
      else temp_millidegrees in
    do _ <- filp_close file NULL;
    kret (sprintf (lit "%d" ++ [LF]) [temp_millidegrees]).

(** ** The module loader *)

(** [module_init]/[module_exit]: the init function runs once when the
    module is loaded and the load is abandoned if it returns a negative
    value; the exit function runs once when a live module is unloaded.
    While the module is live the attributes may be read, and at any time
    another process may rewrite the file system. *)
Inductive phase : Type := NotLoaded | Live | Gone.

#[global] Instance phase_eq_dec : EqDecision phase.
Proof. solve_decision. Defined.

Inductive step : phase * world -> phase * world -> Prop :=
| step_load w r w' :
    gpu_temp_init w = (r, w') ->
    step (NotLoaded, w) (if r <? 0 then Gone else Live, w')
| step_show w a dev out w' :
    a ∈ gpu_temp_attrs ->
    show a dev (dev_attr a) w = (out, w') ->
    step (Live, w) (Live, w')
| step_unload w w' :
    gpu_temp_exit w = (tt, w') ->
    step (Live, w) (Gone, w')
| step_fs p w v :
    step (p, w) (p, set_vfs v w).

(** The one device the module registers. *)
Definition the_device : platform_device := PlatformDevice DRIVER_NAME (-1).

(** The provider's registrations inside the host's registries. *)
Definition own_drivers (w : world) : list string :=
  filter (fun n => n = DRIVER_NAME) (drivers w).
Definition own_devices (w : world) : list platform_device :=
  filter (fun d => pd_name d = DRIVER_NAME) (devices w).
Definition own_hwmons (w : world) : list hwmon_device :=
  filter (fun hd => pd_name (hw_parent hd) = DRIVER_NAME) (hwmons w).

Definition unregistered (w : world) : Prop :=
  own_drivers w = [] /\ own_devices w = [] /\ own_hwmons w = [].
Definition registered (w : world) : Prop :=
  own_drivers w = [DRIVER_NAME] /\
  own_devices w = [the_device] /\
  (length (own_hwmons w) <= 1)%nat.

(** Before the load nothing of the provider is registered and its two
    globals are zero-initialised. *)
Definition initial (s : phase * world) : Prop :=
  fst s = NotLoaded /\ unregistered (snd s) /\
  pdev (snd s) = NULL /\ hwmon_dev (snd s) = NULL.

(** The attribute names the hwmon device is registered with. *)
Definition gpu_temp_attr_names : list string :=
  map (fun a => attr_name (dev_attr a)) (concat gpu_temp_groups).

Definition the_hwmon : hwmon_device :=
  HwmonDevice the_device "gpu_max_temp" gpu_temp_attr_names.

(** States the loader can bring about, starting before the load. *)
Definition reachable (s : phase * world) : Prop :=
  exists s0, initial s0 /\ rtc step s0 s.

(** What holds of the registries in each phase. *)
Definition lifecycle_inv (s : phase * world) : Prop :=
  match fst s with
  | Live =>
      registered (snd s) /\ pdev (snd s) = Ptr the_device /\
      Forall (fun hd => hw_parent hd = the_device) (own_hwmons (snd s))
  | _ => unregistered (snd s)
  end.

(** A registration step of [gpu_temp_init] fails with [e]: the driver
    registration returns the non-zero [e], or it succeeds and the device
    registration returns [ERR_PTR(e)]. *)
Inductive attach_fails (w : world) (e : Z) : Prop :=
| driver_step_fails :
    fst (platform_driver_register gpu_temp_driver w) = e -> e <> 0 ->
    attach_fails w e
| device_step_fails w1 :
    platform_driver_register gpu_temp_driver w = (0, w1) ->
    fst (platform_device_register_simple driver_table DRIVER_NAME (-1) NULL 0 w1)
      = ERR_PTR e ->
    attach_fails w e.

(** ** Decimal text *)

Definition dec_acc (acc : Z) (ds : list ascii) : Z :=
  fold_left (fun a c => a * 10 + (code c - 48)) ds acc.
Definition dec_val (ds : list ascii) : Z := dec_acc 0 ds.

Definition all_digits (ds : list ascii) : bool :=
  negb (Nat.eqb (length ds) 0) && forallb isdigit ds.

(** A well-formed decimal integer as the specification words it: an
    optional minus sign and one or more decimal digits, nothing else. *)
Definition spec_decimal_value (s : list ascii) : option Z :=
  match s with
  | "-"%char :: ds => if all_digits ds then Some (- dec_val ds) else None
  | ds => if all_digits ds then Some (dec_val ds) else None
  end.

(** The specification's reading of a buffer: the value of its text when it
    is a well-formed decimal integer that fits an [int]. *)
Definition spec_int_text (s : list ascii) : bool :=
  match spec_decimal_value s with
  | Some v => (INT_MIN <=? v) && (v <=? INT_MAX)
  | None => false
  end.

(** What [kstrtoint] takes from a buffer, read off lib/kstrtox.c: an
    optional sign, one or more digits, at most one line feed, and then
    the end of the string: the end of the bytes read or a NUL byte among
    them. *)
Inductive kstrto_text (buf : list ascii) (v : Z) : Prop :=
| KstrtoText (sign ds eol rest : list ascii) :
    buf = sign ++ ds ++ eol ++ rest ->
    sign = [] \/ sign = ["+"%char] \/ sign = ["-"%char] ->
    all_digits ds = true ->
    eol = [] \/ eol = [LF] ->
    rest = [] \/ deref rest = NUL ->
    v = (if decide (sign = ["-"%char]) then - dec_val ds else dec_val ds) ->
    in_int v ->
    kstrto_text buf v.

(** ** The ways the data path can fail *)

(** The failures of the data path as the code has them: the source is
    absent or may not be opened, reading it fails or yields nothing, or
    the bytes read (the first 15 of the file) are not a text
    [kstrto_text] describes. *)
Inductive data_path_failure (w : world) : Prop :=
| source_missing :
    vfs w !! TEMP_FILE = None -> data_path_failure w
| source_denied e :
    vfs w !! TEMP_FILE = Some (Denied e) -> data_path_failure w
| source_unreadable e :
    vfs w !! TEMP_FILE = Some (Faulty e) -> data_path_failure w
| source_empty :
    vfs w !! TEMP_FILE = Some (Regular []) -> data_path_failure w
| source_unparseable data :
    vfs w !! TEMP_FILE = Some (Regular data) ->
    (forall v, ~ kstrto_text (take 15 data) v) ->
    data_path_failure w.

(** The same failures as the specification words them: the source
    cannot be opened, its content cannot be read, or its content does
    not parse as a base-10 integer, that is, the content of the file is
    not a well-formed decimal integer. *)
Inductive spec_data_path_failure (w : world) : Prop :=
| spec_cannot_open :
    vfs w !! TEMP_FILE = None \/
    (exists e, vfs w !! TEMP_FILE = Some (Denied e)) ->
    spec_data_path_failure w
| spec_cannot_read e :
    vfs w !! TEMP_FILE = Some (Faulty e) -> spec_data_path_failure w
| spec_not_an_integer data :
    vfs w !! TEMP_FILE = Some (Regular data) ->
    spec_decimal_value data = None ->
    spec_data_path_failure w.

(** ** The reading the callback derives from the file's bytes *)

(** The value [temp1_input_show] prints for a regular file holding
    [data]: the body of the callback between [kernel_read] and
    [filp_close], with the state passing taken out. *)
Definition reading (data : list ascii) : Z :=
  let chunk := take (Z.to_nat (sizeof_temp_str - 1)) data in
  if 0 <? Z.of_nat (length chunk) then
    let '(ret, temp_millidegrees) := kstrtoint (chunk ++ [NUL]) 10 0 in
    if ret <? 0 then 0 else temp_millidegrees
  else 0.

(** The state after a query: only the record of VFS calls has grown. *)
Definition traced (evs : list vfs_event) (w : world) : world :=
  set_trace (trace w ++ evs) w.

(** The VFS calls of a query that found the source, and of one that did
    not. *)
Definition calls_open_read_close : list vfs_event :=
  [ EvOpen TEMP_FILE O_RDONLY 0 true;
    EvRead TEMP_FILE (sizeof_temp_str - 1) 0;
    EvClose TEMP_FILE ].
Definition calls_open_failed : list vfs_event :=
  [ EvOpen TEMP_FILE O_RDONLY 0 false ].

(** ** Bytes that spoil a number *)

(** What may not follow the digits: a byte that is neither a digit, a
    line feed nor NUL, or a line feed followed by a byte that is not
    NUL. *)
Definition spoils (t : list ascii) : Prop :=
  match t with
  | [] => False
  | c :: t' =>
      if Ascii.eqb c LF then
        match t' with
        | [] => False
        | c' :: _ => c' <> NUL
        end
      else isdigit c = false /\ c <> NUL
  end.

(** The names under which the three attributes appear. *)
Definition attr_names : list string := ["temp1_input"; "temp1_max"; "temp1_crit"].

(** The write permission bits of a file mode (0222). *)
Definition S_IWUGO : Z := 146.

(** The two lines the module logs. *)
Definition msg_loaded : list ascii :=
  lit "GPU temperature hwmon module loaded" ++ [LF].
Definition msg_unloaded : list ascii :=
  lit "GPU temperature hwmon module unloaded" ++ [LF].

(** ** Sample states *)

Definition world0 (v : gmap string inode) (h : host) : world :=
  World v 0 [] [] [] [] NULL NULL [] h.
Definition host_ok : host := Host None None None.
Definition dev0 : hwmon_device :=
  HwmonDevice (PlatformDevice DRIVER_NAME (-1)) "gpu_max_temp" [].
Definition attr0 : device_attribute := DeviceAttribute "temp1_input" S_IRUGO.


(** A state whose only file is the source, holding [i]; and one where the
    source does not exist. *)
Definition world_with (i : inode) : world :=
  world0 {[ TEMP_FILE := i ]} host_ok.
Definition world_without : world := world0 ∅ host_ok.

(** Everything but the record of VFS calls. *)
Definition same_state (w w' : world) : Prop :=
  vfs w' = vfs w /\ nr_open w' = nr_open w /\
  drivers w' = drivers w /\ devices w' = devices w /\ hwmons w' = hwmons w /\
  pdev w' = pdev w /\ hwmon_dev w' = hwmon_dev w /\ klog w' = klog w /\
  host_cfg w' = host_cfg w.

(** * Properties *)

(** ** Running the model on the scenarios of the specification *)

Example kstrtoint_42000 : kstrtoint (lit "42000" ++ [NUL]) 10 0 = (0, 42000).
Proof. reflexivity. Qed.
Example kstrtoint_nan : kstrtoint (lit "not-a-number" ++ [NUL]) 10 0 = (-22, 0).
Proof. reflexivity. Qed.
Example kstrtoint_big : kstrtoint (lit "2147483648" ++ [NUL]) 10 0 = (-34, 0).
Proof. reflexivity. Qed.
Example kstrtoint_min : kstrtoint (lit "-2147483648" ++ [LF; NUL]) 10 0 = (0, -2147483648).
Proof. reflexivity. Qed.
Example sprintf_minus_42 : sprintf (lit "%d" ++ [LF]) [-42] = (lit "-42" ++ [LF], 4).
Proof. reflexivity. Qed.

Example scenario_42000 :
  fst (temp1_input_show dev0 attr0 (world_with (Regular (lit "42000"))))
  = (lit "42000" ++ [LF], 6).
Proof. vm_compute. reflexivity. Qed.

Example scenario_removed :
  fst (temp1_input_show dev0 attr0 world_without) = (lit "0" ++ [LF], 2).
Proof. vm_compute. reflexivity. Qed.

Example scenario_not_a_number :
  fst (temp1_input_show dev0 attr0 (world_with (Regular (lit "not-a-number"))))
  = (lit "0" ++ [LF], 2).
Proof. vm_compute. reflexivity. Qed.

Example scenario_echo :
  fst (temp1_input_show dev0 attr0
         (world_with (Regular (lit "42000" ++ [LF]))))
  = (lit "42000" ++ [LF], 6).
Proof. vm_compute. reflexivity. Qed.

Example scenario_attach_detach :
  let '(r, w) := gpu_temp_init world_without in
  let '(_, w') := gpu_temp_exit w in
  r = 0 /\ drivers w = [DRIVER_NAME] /\ devices w = [the_device] /\
  hwmons w = [the_hwmon] /\
  drivers w' = [] /\ devices w' = [] /\ hwmons w' = [].
Proof. vm_compute. repeat split. Qed.

Example scenario_probe_fails :
  let '(r, w) :=
    gpu_temp_init (world0 ∅ (Host None None (Some 12%positive))) in
  r = 0 /\ devices w = [the_device] /\ hwmons w = [] /\
  hwmon_dev w = ERR_PTR (-12).
Proof. vm_compute. repeat split. Qed.

(** ** Machine arithmetic *)

Lemma land_shiftl_small x m k :
  0 <= x < 2 ^ k -> 0 <= k -> Z.land x (Z.shiftl m k) = 0.
Proof.
  intros [Hx0 Hxk] Hk. apply Z.bits_inj'. intros n Hn.
  rewrite Z.land_spec, Z.bits_0.
  destruct (Z.lt_ge_cases n k) as [Hlt | Hge].
  - rewrite (Z.shiftl_spec_low m k n Hlt). apply andb_false_r.
  - destruct (Z.eq_dec x 0) as [-> | Hne].
    + now rewrite Z.bits_0.
    + rewrite (Z.bits_above_log2 x n); [reflexivity | lia |].
      apply Z.lt_le_trans with k; [| assumption].
      apply Z.log2_lt_pow2; lia.
Qed.

Lemma s64_small x : - 2 ^ 63 <= x < 2 ^ 63 -> s64 x = x.
Proof.
  intros H. unfold s64. cbv zeta.
  destruct (Z.ltb_spec (x mod 2 ^ 64) (2 ^ 63)); Z.div_mod_to_equations; lia.
Qed.

Lemma s32_range x : - 2 ^ 31 <= s32 x < 2 ^ 31.
Proof.
  unfold s32. cbv zeta.
  destruct (Z.ltb_spec (x mod 2 ^ 32) (2 ^ 31)); Z.div_mod_to_equations; lia.
Qed.

Lemma s32_small x : - 2 ^ 31 <= x < 2 ^ 31 -> s32 x = x.
Proof.
  intros H. unfold s32. cbv zeta.
  destruct (Z.ltb_spec (x mod 2 ^ 32) (2 ^ 31)); Z.div_mod_to_equations; lia.
Qed.

Lemma s32_fix x : (x =? s32 x) = true <-> in_int x.
Proof.
  unfold in_int, INT_MIN, INT_MAX. rewrite Z.eqb_eq. split.
  - intros E. pose proof (s32_range x). lia.
  - intros H. symmetry. apply s32_small. lia.
Qed.

(** ** Digits *)

Lemma code_range c : 0 <= code c < 256.
Proof.
  unfold code. pose proof (N_ascii_bounded c) as H. lia.
Qed.

Lemma isdigit_val c : isdigit c = true -> digit_val c = Some (code c - 48).
Proof.
  unfold isdigit, digit_val. cbv zeta. intros ->. reflexivity.
Qed.

Lemma isdigit_code c : isdigit c = true <-> 48 <= code c <= 57.
Proof. unfold isdigit. rewrite andb_true_iff, !Z.leb_le. tauto. Qed.

Lemma parse_stop c s res rv :
  isdigit c = false -> _parse_integer (c :: s) 10 res rv = (res, rv).
Proof.
  intros H. cbn [_parse_integer]. unfold digit_val. cbv zeta.
  fold (isdigit c). rewrite H.
  destruct (_ && _) eqn:E; [| reflexivity].
  apply andb_true_iff in E as [E _]. apply Z.leb_le in E.
  destruct (Z.leb_spec 10 (_tolower (code c) - 97 + 10)); [reflexivity | lia].
Qed.

Lemma parse_stop_deref s res rv :
  isdigit (deref s) = false -> _parse_integer s 10 res rv = (res, rv).
Proof.
  destruct s as [| c s]; [reflexivity | apply parse_stop].
Qed.

Lemma parse_step c s res rv :
  isdigit c = true -> 0 <= res < 2 ^ 60 ->
  _parse_integer (c :: s) 10 res rv
  = _parse_integer s 10 (res * 10 + (code c - 48)) (rv + 1).
Proof.
  intros Hd Hres. cbn [_parse_integer]. rewrite (isdigit_val c Hd).
  apply isdigit_code in Hd.
  destruct (Z.leb_spec 10 (code c - 48)); [lia |].
  replace (u64 (Z.shiftl ULLONG_MAX 60)) with (Z.shiftl 15 60) by reflexivity.
  rewrite land_shiftl_small by lia. cbn [Z.eqb negb].
  unfold u64. rewrite Z.mod_small; [reflexivity |].
  change (2 ^ 64) with 18446744073709551616.
  change (2 ^ 60) with 1152921504606846976 in Hres. lia.
Qed.

Lemma dec_acc_cons acc c ds :
  dec_acc acc (c :: ds) = dec_acc (acc * 10 + (code c - 48)) ds.
Proof. reflexivity. Qed.

Lemma dec_acc_app acc ds1 ds2 :
  dec_acc acc (ds1 ++ ds2) = dec_acc (dec_acc acc ds1) ds2.
Proof. unfold dec_acc. apply fold_left_app. Qed.

Lemma dec_acc_bounds ds : forall acc,
  forallb isdigit ds = true -> 0 <= acc ->
  acc <= dec_acc acc ds < (acc + 1) * 10 ^ Z.of_nat (length ds).
Proof.
  induction ds as [| c ds IH]; intros acc Hd Hacc.
  - cbn. lia.
  - cbn [forallb] in Hd. apply andb_true_iff in Hd as [Hc Hd].
    apply isdigit_code in Hc. rewrite dec_acc_cons.
    specialize (IH (acc * 10 + (code c - 48)) Hd ltac:(lia)).
    cbn [length]. rewrite Nat2Z.inj_succ, Z.pow_succ_r by lia.
    assert (0 < 10 ^ Z.of_nat (length ds)) by (apply Z.pow_pos_nonneg; lia).
    nia.
Qed.

Lemma parse_digits ds : forall rest res rv,
  forallb isdigit ds = true ->
  isdigit (deref rest) = false ->
  0 <= res -> dec_acc res ds < 2 ^ 60 ->
  _parse_integer (ds ++ rest) 10 res rv
  = (dec_acc res ds, rv + Z.of_nat (length ds)).
Proof.
  induction ds as [| c ds IH]; intros rest res rv Hd Hrest Hres Hb.
  - cbn [app length dec_acc fold_left]. rewrite parse_stop_deref by assumption.
    f_equal. cbn. lia.
  - cbn [forallb] in Hd. apply andb_true_iff in Hd as [Hc Hd].
    rewrite dec_acc_cons in *.
    pose proof (proj1 (isdigit_code c) Hc) as Hcode.
    pose proof (dec_acc_bounds ds (res * 10 + (code c - 48)) Hd ltac:(lia)).
    cbn [app]. rewrite parse_step by (try assumption; lia).
    rewrite IH by (try assumption; lia).
    f_equal. cbn [length]. lia.
Qed.

Lemma digits_split (s : list ascii) :
  exists ds t, s = ds ++ t /\ forallb isdigit ds = true /\
               isdigit (deref t) = false.
Proof.
  induction s as [| c s (ds & t & -> & Hd & Ht)].
  - exists [], []. repeat split.
  - destruct (isdigit c) eqn:Hc.
    + exists (c :: ds), t. cbn [forallb]. rewrite Hc, Hd. repeat split. exact Ht.
    + exists [], (c :: ds ++ t). repeat split. exact Hc.
Qed.

Lemma dec_val_small ds :
  forallb isdigit ds = true -> (length ds <= 17)%nat ->
  0 <= dec_val ds < 2 ^ 60.
Proof.
  intros Hd Hlen. pose proof (dec_acc_bounds ds 0 Hd ltac:(lia)) as H.
  fold (dec_val ds) in H.
  assert (10 ^ Z.of_nat (length ds) <= 10 ^ 17)
    by (apply Z.pow_le_mono_r; lia).
  change (2 ^ 60) with 1152921504606846976.
  change (10 ^ 17) with 100000000000000000 in *. lia.
Qed.

(** ** What _kstrtoull accepts *)

Lemma _kstrtoull_run ds t r :
  forallb isdigit ds = true -> (length ds <= 17)%nat ->
  isdigit (deref t) = false ->
  _kstrtoull (ds ++ t) 10 r =
    if Nat.eqb (length ds) 0 then (- EINVAL, r)
    else
      let t' := if Ascii.eqb (deref t) LF then tl t else t in
      if negb (Ascii.eqb (deref t') NUL) then (- EINVAL, r)
      else (0, dec_val ds).
Proof.
  intros Hd Hlen Ht. unfold _kstrtoull.
  pose proof (dec_val_small ds Hd Hlen) as Hv.
  rewrite parse_digits by (assumption || lia || apply Hv).
  fold (dec_val ds). rewrite Z.add_0_l.
  replace KSTRTOX_OVERFLOW with (Z.shiftl 1 31) by reflexivity.
  rewrite land_shiftl_small by (change (2 ^ 31) with 2147483648; lia).
  cbn [Z.eqb negb].
  destruct ds as [| c ds]; [reflexivity |].
  cbn [length Nat.eqb].
  destruct (Z.eqb_spec (Z.of_nat (S (length ds))) 0); [lia |].
  rewrite Nat2Z.id.
  change (S (length ds)) with (length (c :: ds)).
  rewrite skipn_app, skipn_all, Nat.sub_diag. reflexivity.
Qed.

Lemma app_nul_split (ds t body : list ascii) :
  ds ++ t = body ++ [NUL] -> forallb isdigit ds = true ->
  exists t0, t = t0 ++ [NUL] /\ body = ds ++ t0.
Proof.
  intros E Hd. destruct (List.exists_last (l := t)) as (t0 & c & ->).
  - intros ->. rewrite app_nil_r in E. subst ds.
    rewrite forallb_app in Hd. apply andb_true_iff in Hd as [_ Hd].
    discriminate Hd.
  - rewrite app_assoc in E. apply app_inj_tail in E as [<- ->].
    exists t0. split; reflexivity.
Qed.

Lemma _kstrtoull_spec body r :
  (length body <= 17)%nat ->
  (exists ds eol rest,
      body = ds ++ eol ++ rest /\ all_digits ds = true /\
      (eol = [] \/ eol = [LF]) /\ (rest = [] \/ deref rest = NUL) /\
      _kstrtoull (body ++ [NUL]) 10 r = (0, dec_val ds))
  \/ (exists e, e < 0 /\ _kstrtoull (body ++ [NUL]) 10 r = (e, r)).
Proof.
  intros Hlen.
  destruct (digits_split (body ++ [NUL])) as (ds & t & E & Hd & Ht).
  destruct (app_nul_split ds t body (eq_sym E) Hd) as (t0 & -> & ->).
  rewrite <- app_assoc, length_app in *.
  rewrite _kstrtoull_run by (try assumption; lia).
  destruct ds as [| d ds].
  { right. exists (- EINVAL). split; reflexivity. }
  cbn [length Nat.eqb]. cbv zeta.
  assert (Hall : all_digits (d :: ds) = true)
    by (unfold all_digits; rewrite Hd; reflexivity).
  destruct t0 as [| c t0].
  - left. exists (d :: ds), [], []. split_and!; auto; now rewrite ?app_nil_r.
  - cbn [app deref hd tl].
    destruct (Ascii.eqb_spec c LF) as [-> | Hc].
    + destruct t0 as [| c' t0]; unfold deref; cbn [app hd].
      * left. exists (d :: ds), [LF], []. split_and!; auto.
      * destruct (Ascii.eqb_spec c' NUL) as [-> | Hc']; cbn [negb].
        -- left. exists (d :: ds), [LF], (NUL :: t0). split_and!; auto.
        -- right. exists (- EINVAL). split; reflexivity.
    + unfold deref; cbn [hd].
      destruct (Ascii.eqb_spec c NUL) as [-> | Hc']; cbn [negb].
      * left. exists (d :: ds), [], (NUL :: t0). split_and!; auto.
      * right. exists (- EINVAL). split; reflexivity.
Qed.

Lemma deref_terminated rest :
  rest = [] \/ deref rest = NUL -> deref (rest ++ [NUL]) = NUL.
Proof.
  intros [-> | H]; [reflexivity |].
  destruct rest; [reflexivity | exact H].
Qed.

Lemma all_digits_forallb ds :
  all_digits ds = true -> forallb isdigit ds = true /\ ds <> [].
Proof.
  unfold all_digits. intros H. apply andb_true_iff in H as [Hn Hd].
  split; [exact Hd |]. intros ->. discriminate Hn.
Qed.

(** A successful [_kstrtoull] on digits followed by an accepted tail. *)
Lemma _kstrtoull_accepts ds eol rest r :
  all_digits ds = true -> (length ds <= 17)%nat ->
  eol = [] \/ eol = [LF] -> rest = [] \/ deref rest = NUL ->
  _kstrtoull (ds ++ eol ++ rest ++ [NUL]) 10 r = (0, dec_val ds).
Proof.
  intros Hall Hlen Heol Hrest.
  destruct (all_digits_forallb ds Hall) as [Hd Hne].
  pose proof (deref_terminated rest Hrest) as Hnul.
  assert (Ht : isdigit (deref (eol ++ rest ++ [NUL])) = false).
  { destruct Heol as [-> | ->]; cbn [app]; [rewrite Hnul |]; reflexivity. }
  rewrite _kstrtoull_run by assumption.
  destruct ds as [| d ds]; [congruence |]. cbn [length Nat.eqb]. cbv zeta.
  destruct Heol as [-> | ->]; cbn [app].
  - rewrite Hnul. change (Ascii.eqb NUL LF) with false. cbv iota.
    rewrite Hnul. reflexivity.
  - unfold deref. cbn [hd tl]. rewrite Ascii.eqb_refl. cbn [tl].
    fold (deref (rest ++ [NUL])). rewrite Hnul. reflexivity.
Qed.

Lemma digit_not_sign d :
  isdigit d = true -> Ascii.eqb d "-" = false /\ Ascii.eqb d "+" = false.
Proof.
  intros H. split.
  - destruct (Ascii.eqb_spec d "-") as [-> |]; [discriminate H | reflexivity].
  - destruct (Ascii.eqb_spec d "+") as [-> |]; [discriminate H | reflexivity].
Qed.

(** ** What kstrtoint accepts *)

Lemma kstrtoint_accepts chunk v r :
  kstrto_text chunk v -> (length chunk <= 17)%nat ->
  kstrtoint (chunk ++ [NUL]) 10 r = (0, v).
Proof.
  intros [sign ds eol rest -> Hsign Hall Heol Hrest -> Hv] Hlen.
  rewrite !length_app in Hlen.
  destruct (all_digits_forallb ds Hall) as [Hd Hne].
  pose proof (dec_val_small ds Hd ltac:(lia)) as Hsm.
  change (2 ^ 60) with 1152921504606846976 in Hsm.
  assert (Hrun : _kstrtoull (ds ++ eol ++ rest ++ [NUL]) 10 0 = (0, dec_val ds))
    by (apply _kstrtoull_accepts; auto; lia).
  assert (Hfin : forall x, in_int x -> - 2 ^ 63 <= x < 2 ^ 63 ->
            (let '(rv, tmp) := (0, s64 x) in
             if rv <? 0 then (rv, r)
             else if negb (tmp =? s32 tmp) then (- ERANGE, r) else (0, tmp))
            = (0, x)).
  { intros x Hx Hx'. rewrite s64_small by exact Hx'. cbn [Z.ltb Z.compare].
    rewrite (proj2 (s32_fix x) Hx). reflexivity. }
  unfold kstrtoint, kstrtoll, kstrtoull.
  rewrite <- !app_assoc.
  destruct Hsign as [-> | [-> | ->]]; unfold deref; cbn [app hd tl].
  - destruct ds as [| d ds']; [congruence |].
    cbn [forallb] in Hd. apply andb_true_iff in Hd as [Hd0 _].
    destruct (digit_not_sign d Hd0) as [Hm Hp].
    cbn [app hd]. rewrite Hm, Hp.
    change (d :: ds' ++ eol ++ rest ++ [NUL])
      with ((d :: ds') ++ eol ++ rest ++ [NUL]).
    rewrite Hrun. cbn [Z.ltb Z.compare].
    destruct (Z.ltb_spec (s64 (dec_val (d :: ds'))) 0) as [Hneg |].
    + rewrite s64_small in Hneg by (change (2 ^ 63) with 9223372036854775808; lia).
      lia.
    + rewrite decide_False in Hv by discriminate.
      rewrite decide_False by discriminate.
      apply Hfin; [exact Hv | change (2 ^ 63) with 9223372036854775808; lia].
  - change (Ascii.eqb "+" "-") with false.
    change (Ascii.eqb "+" "+") with true. cbv iota.
    rewrite Hrun. cbn [Z.ltb Z.compare].
    destruct (Z.ltb_spec (s64 (dec_val ds)) 0) as [Hneg |].
    + rewrite s64_small in Hneg by (change (2 ^ 63) with 9223372036854775808; lia).
      lia.
    + rewrite decide_False in Hv by discriminate.
      rewrite decide_False by discriminate.
      apply Hfin; [exact Hv | change (2 ^ 63) with 9223372036854775808; lia].
  - change (Ascii.eqb "-" "-") with true. cbv iota.
    rewrite Hrun. cbn [Z.ltb Z.compare].
    destruct (Z.ltb_spec 0 (s64 (- dec_val ds))) as [Hpos |].
    + rewrite s64_small in Hpos by (change (2 ^ 63) with 9223372036854775808; lia).
      lia.
    + rewrite decide_True in Hv by reflexivity.
      rewrite decide_True by reflexivity.
      apply Hfin; [exact Hv | change (2 ^ 63) with 9223372036854775808; lia].
Qed.

Lemma kstrto_text_rejected chunk :
  (length chunk <= 17)%nat ->
  fst (kstrtoint (chunk ++ [NUL]) 10 0) < 0 ->
  forall v, ~ kstrto_text chunk v.
Proof.
  intros Hlen Hneg v Hv.
  rewrite (kstrtoint_accepts chunk v 0 Hv Hlen) in Hneg. cbn in Hneg. lia.
Qed.

Lemma kstrtoll_spec chunk r :
  (length chunk <= 17)%nat ->
  (exists sign ds eol rest,
      chunk = sign ++ ds ++ eol ++ rest /\
      (sign = [] \/ sign = ["+"%char] \/ sign = ["-"%char]) /\
      all_digits ds = true /\
      (eol = [] \/ eol = [LF]) /\ (rest = [] \/ deref rest = NUL) /\
      kstrtoll (chunk ++ [NUL]) 10 r
      = (0, if decide (sign = ["-"%char]) then - dec_val ds else dec_val ds))
  \/ (exists e, e < 0 /\ kstrtoll (chunk ++ [NUL]) 10 r = (e, r)).
Proof.
  intros Hlen.
  assert (Hsmall : forall ds, all_digits ds = true -> (length ds <= 17)%nat ->
            s64 (dec_val ds) = dec_val ds /\ s64 (- dec_val ds) = - dec_val ds /\
            0 <= dec_val ds).
  { intros ds Hall Hl. destruct (all_digits_forallb ds Hall) as [Hd _].
    pose proof (dec_val_small ds Hd Hl) as H.
    change (2 ^ 60) with 1152921504606846976 in H.
    rewrite !s64_small by (change (2 ^ 63) with 9223372036854775808; lia).
    lia. }
  destruct chunk as [| c body].
  { right. exists (- EINVAL). split; reflexivity. }
  cbn [length] in Hlen. unfold kstrtoll, kstrtoull, deref.
  change (hd NUL ((c :: body) ++ [NUL])) with c.
  change (tl ((c :: body) ++ [NUL])) with (body ++ [NUL]).
  destruct (Ascii.eqb_spec c "-") as [-> | Hm].
  - destruct (_kstrtoull_spec body 0 ltac:(lia))
      as [(ds & eol & rest & -> & Hall & Heol & Hrest & ->) | (e & He & ->)].
    + rewrite !length_app in Hlen.
      destruct (Hsmall ds Hall ltac:(lia)) as (_ & -> & H0).
      cbn [Z.ltb Z.compare].
      destruct (Z.ltb_spec 0 (- dec_val ds)); [lia |].
      left. exists ["-"%char], ds, eol, rest.
      rewrite decide_True by reflexivity. split_and!; auto.
    + destruct (Z.ltb_spec e 0); [| lia]. right. exists e. auto.
  - destruct (Ascii.eqb_spec c "+") as [-> | Hp].
    + destruct (_kstrtoull_spec body 0 ltac:(lia))
        as [(ds & eol & rest & -> & Hall & Heol & Hrest & ->) | (e & He & ->)].
      * rewrite !length_app in Hlen.
        destruct (Hsmall ds Hall ltac:(lia)) as (-> & _ & H0).
        cbn [Z.ltb Z.compare].
        destruct (Z.ltb_spec (dec_val ds) 0); [lia |].
        left. exists ["+"%char], ds, eol, rest.
        rewrite decide_False by discriminate. split_and!; auto.
      * destruct (Z.ltb_spec e 0); [| lia]. right. exists e. auto.
    + destruct (_kstrtoull_spec (c :: body) 0 ltac:(cbn [length]; lia))
        as [(ds & eol & rest & E & Hall & Heol & Hrest & ->) | (e & He & ->)].
      * assert (Hl : (length ds <= 17)%nat).
        { apply (f_equal (@length ascii)) in E.
          rewrite !length_app in E. cbn [length] in E. lia. }
        destruct (Hsmall ds Hall Hl) as (-> & _ & H0).
        cbn [Z.ltb Z.compare].
        destruct (Z.ltb_spec (dec_val ds) 0); [lia |].
        left. exists [], ds, eol, rest.
        rewrite decide_False by discriminate. split_and!; auto.
      * destruct (Z.ltb_spec e 0); [| lia]. right. exists e. auto.
Qed.

Lemma kstrtoint_spec chunk r :
  (length chunk <= 17)%nat ->
  (exists v, kstrto_text chunk v /\ kstrtoint (chunk ++ [NUL]) 10 r = (0, v))
  \/ (exists e, e < 0 /\ kstrtoint (chunk ++ [NUL]) 10 r = (e, r)).
Proof.
  intros Hlen. unfold kstrtoint.
  destruct (kstrtoll_spec chunk 0 Hlen)
    as [(sign & ds & eol & rest & E & Hsign & Hall & Heol & Hrest & ->)
       | (e & He & ->)].
  - cbn [Z.ltb Z.compare].
    set (v := if decide (sign = ["-"%char]) then - dec_val ds else dec_val ds).
    destruct (v =? s32 v) eqn:Hfit; cbn [negb].
    + left. exists v. split; [| reflexivity].
      apply s32_fix in Hfit.
      exact (KstrtoText chunk v sign ds eol rest E Hsign Hall Heol Hrest
               eq_refl Hfit).
    + right. exists (- ERANGE). split; reflexivity.
  - destruct (Z.ltb_spec e 0); [| lia]. right. exists e. auto.
Qed.

(** ** Nothing past the terminator is read *)

(** The array [temp_str] is not initialised; after [temp_str[ret] = 0]
    the bytes that follow the terminator are whatever the stack held.
    They do not matter: the result is the same for every [tail]. *)
Lemma _kstrtoull_tail body tail r :
  (length body <= 17)%nat ->
  _kstrtoull (body ++ NUL :: tail) 10 r = _kstrtoull (body ++ [NUL]) 10 r.
Proof.
  intros Hlen. destruct (digits_split body) as (ds & t0 & -> & Hd & Ht0).
  rewrite length_app in Hlen. rewrite <- !app_assoc.
  assert (Hstop : forall x, isdigit (deref (t0 ++ NUL :: x)) = false)
    by (intros x; destruct t0; [reflexivity | exact Ht0]).
  rewrite !_kstrtoull_run by (assumption || lia || apply Hstop).
  destruct (Nat.eqb (length ds) 0); [reflexivity |]. cbv zeta.
  destruct t0 as [| c t0]; [reflexivity |].
  unfold deref. cbn [app hd tl].
  destruct (Ascii.eqb c LF); [| reflexivity].
  destruct t0; reflexivity.
Qed.

Lemma kstrtoint_tail chunk tail r :
  (length chunk <= 17)%nat ->
  kstrtoint (chunk ++ NUL :: tail) 10 r = kstrtoint (chunk ++ [NUL]) 10 r.
Proof.
  intros Hlen. destruct chunk as [| c chunk]; [reflexivity |].
  cbn [length] in Hlen. unfold kstrtoint, kstrtoll, kstrtoull, deref.
  change (hd NUL ((c :: chunk) ++ NUL :: tail)) with c.
  change (hd NUL ((c :: chunk) ++ [NUL])) with c.
  change (tl ((c :: chunk) ++ NUL :: tail)) with (chunk ++ NUL :: tail).
  change (tl ((c :: chunk) ++ [NUL])) with (chunk ++ [NUL]).
  destruct (Ascii.eqb c "-").
  - rewrite _kstrtoull_tail by lia. reflexivity.
  - destruct (Ascii.eqb c "+").
    + rewrite _kstrtoull_tail by lia. reflexivity.
    + rewrite (_kstrtoull_tail (c :: chunk)) by (cbn [length]; lia).
      reflexivity.
Qed.

(** Either way, what the caller is left with is an [int]. *)
Lemma kstrtoint_in_int chunk :
  (length chunk <= 17)%nat ->
  in_int (snd (kstrtoint (chunk ++ [NUL]) 10 0)).
Proof.
  intros Hlen.
  destruct (kstrtoint_spec chunk 0 Hlen) as [(v & [] & ->) | (e & _ & ->)].
  - assumption.
  - cbn. unfold in_int, INT_MIN, INT_MAX. lia.
Qed.

(** ** The current-reading callback, case by case on the source *)

Ltac run_show :=
  cbv beta iota zeta delta
    [temp1_input_show filp_open kernel_read filp_close grab log_event
     kbind kget kret kmodify has_flag O_RDONLY O_CREAT O_TRUNC O_ACCMODE
     O_WRONLY IS_ERR f_inode f_flags f_path traced calls_open_read_close
     calls_open_failed].

Lemma show_missing dev attr w :
  vfs w !! TEMP_FILE = None ->
  temp1_input_show dev attr w
  = (sprintf (lit "0" ++ [LF]) [], traced calls_open_failed w).
Proof.
  intros H. run_show. rewrite H. cbn [Z.land Z.eqb negb]. reflexivity.
Qed.

Lemma show_denied dev attr w e :
  vfs w !! TEMP_FILE = Some (Denied e) ->
  temp1_input_show dev attr w
  = (sprintf (lit "0" ++ [LF]) [], traced calls_open_failed w).
Proof.
  intros H. run_show. rewrite H. reflexivity.
Qed.

Lemma show_faulty dev attr w e :
  vfs w !! TEMP_FILE = Some (Faulty e) ->
  temp1_input_show dev attr w
  = (sprintf (lit "%d" ++ [LF]) [0], traced calls_open_read_close w).
Proof.
  intros H. run_show. rewrite H. destruct w.
  change (Z.land 0 3 =? 1) with false.
  cbn -[sprintf lit sizeof_temp_str]. rewrite <- !app_assoc. reflexivity.
Qed.

Lemma show_regular dev attr w data :
  vfs w !! TEMP_FILE = Some (Regular data) ->
  temp1_input_show dev attr w
  = (sprintf (lit "%d" ++ [LF]) [reading data],
     traced calls_open_read_close w).
Proof.
  intros H. run_show. rewrite H. destruct w.
  change (Z.land 0 3 =? 1) with false.
  change (negb (Z.land 0 512 =? 0)) with false.
  cbn -[sprintf lit sizeof_temp_str kstrtoint take length Z.of_nat Z.to_nat].
  change (Z.land 0 3 =? 1) with false.
  cbn -[sprintf lit sizeof_temp_str kstrtoint take length Z.of_nat Z.to_nat].
  rewrite <- !app_assoc. reflexivity.
Qed.

(** ** The reading as a function of the bytes *)

Lemma take_chunk_length (data : list ascii) :
  (length (take (Z.to_nat (sizeof_temp_str - 1)) data) <= 15)%nat.
Proof.
  rewrite length_take. change (Z.to_nat (sizeof_temp_str - 1)) with 15%nat. lia.
Qed.

Lemma reading_prefix data :
  reading (take 15 data) = reading data.
Proof.
  unfold reading. change (Z.to_nat (sizeof_temp_str - 1)) with 15%nat.
  rewrite take_take, Nat.min_id. reflexivity.
Qed.

Lemma reading_in_int data : in_int (reading data).
Proof.
  unfold reading. cbv zeta.
  pose proof (take_chunk_length data) as Hlen.
  set (chunk := take _ data) in *.
  destruct (0 <? Z.of_nat (length chunk)); [| unfold in_int, INT_MIN, INT_MAX; lia].
  destruct (kstrtoint_spec chunk 0 ltac:(lia)) as [(v & [] & ->) | (e & He & ->)].
  - cbn [Z.ltb Z.compare]. assumption.
  - destruct (e <? 0); unfold in_int, INT_MIN, INT_MAX; lia.
Qed.

Lemma reading_accepted data v :
  kstrto_text (take 15 data) v -> reading data = v.
Proof.
  intros Hv. unfold reading. cbv zeta.
  pose proof (take_chunk_length data) as Hlen.
  change (Z.to_nat (sizeof_temp_str - 1)) with 15%nat in *.
  rewrite (kstrtoint_accepts _ v 0 Hv) by lia. cbn [Z.ltb Z.compare].
  destruct Hv as [sign ds eol rest E _ Hall _ _ _ _].
  destruct (all_digits_forallb ds Hall) as [_ Hne].
  rewrite E, !length_app.
  destruct ds as [| d ds]; [congruence |]. cbn [length].
  destruct (Z.ltb_spec 0
    (Z.of_nat (length sign + (S (length ds) + (length eol + length rest)))));
    [reflexivity | lia].
Qed.

Lemma reading_rejected data :
  (forall v, ~ kstrto_text (take 15 data) v) -> reading data = 0.
Proof.
  intros Hno. unfold reading. cbv zeta.
  pose proof (take_chunk_length data) as Hlen.
  change (Z.to_nat (sizeof_temp_str - 1)) with 15%nat in *.
  destruct (0 <? _); [| reflexivity].
  destruct (kstrtoint_spec (take 15 data) 0 ltac:(lia))
    as [(v & Hv & _) | (e & He & ->)].
  - destruct (Hno v Hv).
  - destruct (Z.ltb_spec e 0); [reflexivity | lia].
Qed.

Lemma reading_failed data :
  fst (kstrtoint (take 15 data ++ [NUL]) 10 0) < 0 -> reading data = 0.
Proof.
  intros H. unfold reading. cbv zeta.
  change (Z.to_nat (sizeof_temp_str - 1)) with 15%nat.
  destruct (0 <? _); [| reflexivity].
  destruct (kstrtoint _ 10 0) as [ret t]. cbn [fst] in H.
  destruct (Z.ltb_spec ret 0); [reflexivity | lia].
Qed.

Lemma reading_unsigned data :
  deref data <> "-"%char -> 0 <= reading data.
Proof.
  intros Hsign. unfold reading. cbv zeta.
  pose proof (take_chunk_length data) as Hlen.
  change (Z.to_nat (sizeof_temp_str - 1)) with 15%nat in *.
  destruct (0 <? _); [| lia].
  destruct (kstrtoint_spec (take 15 data) 0 ltac:(lia))
    as [(v & Hv & ->) | (e & He & ->)].
  - cbn [Z.ltb Z.compare].
    destruct Hv as [sign ds eol rest E Hs Hall _ _ -> _].
    destruct (all_digits_forallb ds Hall) as [Hd _].
    pose proof (dec_acc_bounds ds 0 Hd ltac:(lia)) as Hb. fold (dec_val ds) in Hb.
    destruct (decide (sign = ["-"%char])) as [-> |]; [| lia].
    destruct data as [| c data]; [discriminate E |].
    cbn in E. injection E as -> _. destruct Hsign. reflexivity.
  - destruct (e <? 0); lia.
Qed.

(** ** sprintf and the digits it prints *)

Lemma sprintf_d v :
  sprintf (lit "%d" ++ [LF]) [v]
  = (fmt_d v ++ [LF], Z.of_nat (length (fmt_d v ++ [LF]))).
Proof. reflexivity. Qed.

Lemma sprintf_zero : sprintf (lit "%d" ++ [LF]) [0] = (lit "0" ++ [LF], 2).
Proof. reflexivity. Qed.

Lemma put_dec_digits fuel : forall n,
  0 <= n -> forallb isdigit (put_dec fuel n) = true.
Proof.
  assert (Hdig : forall n, 0 <= n ->
            isdigit (ascii_of_N (Z.to_N (48 + n mod 10))) = true).
  { intros n Hn. apply isdigit_code. unfold code.
    pose proof (Z.mod_pos_bound n 10 ltac:(lia)).
    rewrite N_ascii_embedding by lia. lia. }
  induction fuel as [| fuel IH]; intros n Hn; [reflexivity |].
  cbn [put_dec]. destruct (n <? 10); cbn [forallb]; rewrite Hdig by lia.
  - reflexivity.
  - apply IH. apply Z.div_pos; lia.
Qed.

Lemma fmt_d_unsigned v c s :
  0 <= v -> fmt_d v ++ [LF] = c :: s -> c <> "-"%char.
Proof.
  intros Hv E. unfold fmt_d in E.
  destruct (Z.ltb_spec v 0); [lia |]. cbn [app] in E.
  rewrite Z.abs_eq in E by lia.
  pose proof (put_dec_digits 20 v Hv) as Hd.
  rewrite forallb_forall in Hd.
  destruct (rev (put_dec 20 v)) as [| d ds] eqn:Hrev.
  - injection E as <- _. discriminate.
  - injection E as <- _.
    assert (Hin : In d (put_dec 20 v)).
    { apply in_rev. rewrite Hrev. left. reflexivity. }
    intros ->. discriminate (Hd _ Hin).
Qed.

Lemma spec_decimal_value_unsigned c s :
  c <> "-"%char ->
  spec_decimal_value (c :: s)
  = if all_digits (c :: s) then Some (dec_val (c :: s)) else None.
Proof.
  intros Hne. destruct c as [[] [] [] [] [] [] [] []]; try reflexivity.
  destruct Hne. reflexivity.
Qed.

Lemma spec_decimal_value_inv s N :
  spec_decimal_value s = Some N ->
  (exists ds, s = "-"%char :: ds /\ all_digits ds = true /\ N = - dec_val ds)
  \/ (all_digits s = true /\ N = dec_val s).
Proof.
  destruct s as [| c s]; [discriminate |].
  destruct (Ascii.eqb_spec c "-") as [-> | Hne].
  - cbn [spec_decimal_value]. destruct (all_digits s) eqn:E; [| discriminate].
    intros [= <-]. left. exists s. auto.
  - rewrite (spec_decimal_value_unsigned c s Hne).
    destruct (all_digits (c :: s)); [| discriminate].
    intros [= <-]. right. auto.
Qed.

Lemma spec_decimal_kstrto s N :
  spec_decimal_value s = Some N -> in_int N -> kstrto_text s N.
Proof.
  intros H HN. destruct (spec_decimal_value_inv s N H)
    as [(ds & -> & Hall & ->) | (Hall & ->)].
  - apply (KstrtoText _ _ ["-"%char] ds [] []); auto;
      try (now rewrite app_nil_r); try (now rewrite decide_True).
  - apply (KstrtoText _ _ [] s [] []); auto;
      try (now rewrite app_nil_r); try (now rewrite decide_False).
Qed.

(** ** The text [%d] prints is read back as the same number *)

Lemma put_dec_code n :
  0 <= n -> code (ascii_of_N (Z.to_N (48 + n mod 10))) = 48 + n mod 10.
Proof.
  intros Hn. unfold code.
  pose proof (Z.mod_pos_bound n 10 ltac:(lia)).
  rewrite N_ascii_embedding by lia. lia.
Qed.

Lemma put_dec_val fuel : forall n,
  0 <= n < 10 ^ Z.of_nat fuel -> dec_val (rev (put_dec fuel n)) = n.
Proof.
  induction fuel as [| fuel IH]; intros n Hn.
  - cbn in *. lia.
  - rewrite Nat2Z.inj_succ, Z.pow_succ_r in Hn by lia.
    cbn [put_dec]. destruct (Z.ltb_spec n 10).
    + cbn. rewrite put_dec_code by lia. rewrite Z.mod_small; lia.
    + cbn [rev]. unfold dec_val. rewrite dec_acc_app. fold (dec_val (rev (put_dec fuel (n / 10)))).
      rewrite IH by (Z.div_mod_to_equations; lia).
      cbn. rewrite put_dec_code by lia. Z.div_mod_to_equations; lia.
Qed.

Lemma put_dec_length fuel : forall n (k : nat),
  0 <= n < 10 ^ Z.of_nat k -> (1 <= k)%nat ->
  (1 <= length (put_dec (S fuel) n) <= k)%nat.
Proof.
  induction fuel as [| fuel IH]; intros n k Hn Hk.
  - cbn [put_dec]. destruct (n <? 10); cbn [length]; [lia |].
    destruct (Z.ltb_spec n 10) as [| Hge]; cbn [length]; [lia |].
    destruct k as [| [| k]]; [lia | cbn in Hn; lia | lia].
  - change (put_dec (S (S fuel)) n)
      with (let d := ascii_of_N (Z.to_N (48 + n mod 10)) in
            if n <? 10 then [d] else d :: put_dec (S fuel) (n / 10)).
    cbv zeta. destruct (Z.ltb_spec n 10) as [| Hge]; cbn [length]; [lia |].
    destruct k as [| [| k]]; [lia | cbn in Hn; lia |].
    rewrite !Nat2Z.inj_succ, Z.pow_succ_r in Hn by lia.
    specialize (IH (n / 10) (S k)).
    rewrite Nat2Z.inj_succ in IH.
    destruct IH as [_ IH]; [Z.div_mod_to_equations; lia | lia | lia].
Qed.

Lemma put_dec_all_digits n :
  0 <= n -> all_digits (rev (put_dec 20 n)) = true.
Proof.
  intros Hn. unfold all_digits. apply andb_true_iff. split.
  - rewrite length_rev.
    destruct (put_dec 20 n) eqn:E; [| reflexivity].
    cbn [put_dec] in E. destruct (n <? 10); discriminate E.
  - apply forallb_forall. intros c Hc. apply in_rev in Hc.
    pose proof (put_dec_digits 20 n Hn) as Hd.
    rewrite forallb_forall in Hd. auto.
Qed.

Lemma fmt_d_decimal N :
  in_int N ->
  spec_decimal_value (fmt_d N) = Some N /\ (length (fmt_d N) <= 11)%nat.
Proof.
  unfold in_int, INT_MIN, INT_MAX. intros HN.
  assert (Habs : 0 <= Z.abs N < 10 ^ Z.of_nat 10)
    by (change (10 ^ Z.of_nat 10) with 10000000000; lia).
  pose proof (put_dec_length 19 (Z.abs N) 10 Habs ltac:(lia)) as Hlen.
  pose proof (put_dec_all_digits (Z.abs N) ltac:(lia)) as Hall.
  assert (Hval : dec_val (rev (put_dec 20 (Z.abs N))) = Z.abs N).
  { apply put_dec_val. change (10 ^ Z.of_nat 20) with 100000000000000000000.
    change (10 ^ Z.of_nat 10) with 10000000000 in Habs. lia. }
  unfold fmt_d. destruct (Z.ltb_spec N 0) as [Hneg | Hpos].
  - cbn [app spec_decimal_value length]. rewrite Hall, Hval, length_rev.
    split; [f_equal; lia | lia].
  - cbn [app]. rewrite length_rev. split; [| lia].
    destruct (rev (put_dec 20 (Z.abs N))) as [| c s] eqn:E; [discriminate Hall |].
    rewrite spec_decimal_value_unsigned.
    + rewrite Hall, Hval. f_equal. lia.
    + intros ->. unfold all_digits in Hall. cbn in Hall. discriminate Hall.
Qed.

(** * The current reading *)

(** C1, as amended.  For every well-formed decimal integer N that fits a
    32-bit signed int and whose text (an optional minus sign and digits,
    at most 15 bytes) is the whole content of the source file,
    [temp1_input_show] stores the decimal text of N followed by a newline
    and returns its length. *)
Theorem temp1_input_show_reads_int w dev attr data N :
  vfs w !! TEMP_FILE = Some (Regular data) ->
  spec_decimal_value data = Some N ->
  in_int N ->
  (length data <= 15)%nat ->
  fst (temp1_input_show dev attr w)
  = (fmt_d N ++ [LF], Z.of_nat (length (fmt_d N ++ [LF]))).
Proof.
  intros Hfile Hval HN Hlen.
  rewrite (show_regular dev attr w data Hfile). cbn [fst].
  rewrite (reading_accepted data N); [apply sprintf_d |].
  rewrite take_ge by lia. apply spec_decimal_kstrto; assumption.
Qed.

Lemma temp1_input_show_reads_42000 :
  vfs (world_with (Regular (lit "42000"))) !! TEMP_FILE
    = Some (Regular (lit "42000")) /\
  spec_decimal_value (lit "42000") = Some 42000 /\
  in_int 42000 /\
  (length (lit "42000") <= 15)%nat /\
  fst (temp1_input_show dev0 attr0 (world_with (Regular (lit "42000"))))
  = (lit "42000" ++ [LF], 6).
Proof.
  assert (H1 : vfs (world_with (Regular (lit "42000"))) !! TEMP_FILE
               = Some (Regular (lit "42000"))) by (vm_compute; reflexivity).
  assert (H2 : spec_decimal_value (lit "42000") = Some 42000) by reflexivity.
  assert (H3 : in_int 42000) by (unfold in_int, INT_MIN, INT_MAX; lia).
  assert (H4 : (length (lit "42000") <= 15)%nat) by (cbn; lia).
  split_and!; try assumption.
  exact (temp1_input_show_reads_int _ dev0 attr0 _ _ H1 H2 H3 H4).
Defined.

(** C1 as stated fails: 2147483648 is a well-formed decimal integer, and
    with its text as the content of the file the callback prints 0. *)
Lemma temp1_input_show_drops_wide_integer :
  spec_decimal_value (lit "2147483648") = Some 2147483648 /\
  fst (temp1_input_show dev0 attr0 (world_with (Regular (lit "2147483648"))))
    = (lit "0" ++ [LF], 2) /\
  fst (fst (temp1_input_show dev0 attr0
              (world_with (Regular (lit "2147483648")))))
    <> fmt_d 2147483648 ++ [LF].
Proof.
  split_and!.
  - reflexivity.
  - vm_compute. reflexivity.
  - vm_compute. discriminate.
Qed.

(** C2, as amended.  On every failure of the data path, whether the
    source cannot be opened, nothing can be read from it, or its first
    15 bytes are not of the form [kstrtoint] takes (an optional sign '+'
    or '-', one or more decimal digits and at most one line feed, ending
    at the last byte read or at a NUL byte, with a value that fits a
    32-bit signed int), [temp1_input_show] stores exactly "0" and a
    newline and returns the length 2: no error reaches the caller. *)
Theorem temp1_input_show_failure_is_zero w dev attr :
  data_path_failure w ->
  fst (temp1_input_show dev attr w) = (lit "0" ++ [LF], 2).
Proof.
  intros [Hnone | e He | e He | Hempty | data Hdata Hparse].
  - rewrite (show_missing dev attr w Hnone). reflexivity.
  - rewrite (show_denied dev attr w e He). reflexivity.
  - rewrite (show_faulty dev attr w e He). reflexivity.
  - rewrite (show_regular dev attr w [] Hempty). reflexivity.
  - rewrite (show_regular dev attr w data Hdata). cbn [fst].
    rewrite (reading_rejected data Hparse). reflexivity.
Qed.

Lemma temp1_input_show_not_a_number :
  data_path_failure (world_with (Regular (lit "not-a-number"))) /\
  fst (temp1_input_show dev0 attr0 (world_with (Regular (lit "not-a-number"))))
  = (lit "0" ++ [LF], 2).
Proof.
  assert (H : data_path_failure (world_with (Regular (lit "not-a-number")))).
  { apply (source_unparseable _ (lit "not-a-number")).
    - vm_compute. reflexivity.
    - apply kstrto_text_rejected; [cbn; lia | vm_compute; reflexivity]. }
  split; [exact H |].
  exact (temp1_input_show_failure_is_zero _ dev0 attr0 H).
Defined.

(** C2 as stated fails: the content 000000000000042abc is not a base-10
    integer, and the callback, which parses the first 15 bytes only,
    prints 42. *)
Lemma temp1_input_show_parses_a_prefix :
  let w := world_with (Regular (lit "000000000000042abc")) in
  spec_data_path_failure w /\
  fst (temp1_input_show dev0 attr0 w) = (lit "42" ++ [LF], 3) /\
  fst (temp1_input_show dev0 attr0 w) <> (lit "0" ++ [LF], 2).
Proof.
  cbv zeta. split_and!.
  - apply (spec_not_an_integer _ (lit "000000000000042abc")).
    + vm_compute. reflexivity.
    + reflexivity.
  - vm_compute. reflexivity.
  - vm_compute. discriminate.
Qed.

(** * The thresholds *)

(** C3.  [temp1_max_show] stores "90000" and a newline and returns the
    length 6, whatever the state and the arguments; it has no failing
    path and leaves the state as it was. *)
Theorem temp1_max_show_constant (w : world) dev attr :
  temp1_max_show dev attr w = ((lit "90000" ++ [LF], 6), w).
Proof. reflexivity. Qed.

(** C4.  [temp1_crit_show] stores "95000" and a newline and returns the
    length 6, whatever the state and the arguments; it has no failing
    path and leaves the state as it was. *)
Theorem temp1_crit_show_constant (w : world) dev attr :
  temp1_crit_show dev attr w = ((lit "95000" ++ [LF], 6), w).
Proof. reflexivity. Qed.

(** * The shape of the current reading *)

(** C5, as amended.  For every state of the source, [temp1_input_show]
    stores the decimal text of an integer of the 32-bit signed range
    followed by a newline, and returns the length of that text; the
    integer is non-negative unless the file begins with a minus sign. *)
Theorem temp1_input_show_prints_int w dev attr :
  exists v,
    fst (temp1_input_show dev attr w)
    = (fmt_d v ++ [LF], Z.of_nat (length (fmt_d v ++ [LF]))) /\
    in_int v /\
    ((forall data, vfs w !! TEMP_FILE = Some (Regular data) ->
                   deref data <> "-"%char) -> 0 <= v).
Proof.
  assert (Hzero : in_int 0) by (unfold in_int, INT_MIN, INT_MAX; lia).
  destruct (vfs w !! TEMP_FILE) as [[data | e | e] |] eqn:Hfile.
  - exists (reading data). rewrite (show_regular dev attr w data Hfile).
    split_and!; [apply sprintf_d | apply reading_in_int |].
    intros Hsign. apply reading_unsigned, Hsign. reflexivity.
  - exists 0. rewrite (show_denied dev attr w e Hfile). auto with zarith.
  - exists 0. rewrite (show_faulty dev attr w e Hfile). auto with zarith.
  - exists 0. rewrite (show_missing dev attr w Hfile). auto with zarith.
Qed.

(** C5 as stated fails: with "-5" in the file the callback prints "-5",
    which is the text of no non-negative integer. *)
Lemma temp1_input_show_negative :
  fst (fst (temp1_input_show dev0 attr0 (world_with (Regular (lit "-5")))))
    = lit "-5" ++ [LF] /\
  ~ exists v, 0 <= v /\
      fst (fst (temp1_input_show dev0 attr0 (world_with (Regular (lit "-5")))))
      = fmt_d v ++ [LF].
Proof.
  assert (E : fst (fst (temp1_input_show dev0 attr0
                          (world_with (Regular (lit "-5")))))
              = lit "-5" ++ [LF]) by (vm_compute; reflexivity).
  split; [exact E |]. intros (v & Hv & E'). rewrite E in E'.
  exact (fmt_d_unsigned v _ _ Hv (eq_sym E') eq_refl).
Qed.

(** * What a query leaves behind *)

Lemma same_state_traced evs w : same_state w (traced evs w).
Proof. destruct w. repeat split. Qed.

Lemma show_same_state w dev attr :
  same_state w (snd (temp1_input_show dev attr w)).
Proof.
  destruct (vfs w !! TEMP_FILE) as [[data | e | e] |] eqn:Hfile.
  - rewrite (show_regular dev attr w data Hfile). apply same_state_traced.
  - rewrite (show_denied dev attr w e Hfile). apply same_state_traced.
  - rewrite (show_faulty dev attr w e Hfile). apply same_state_traced.
  - rewrite (show_missing dev attr w Hfile). apply same_state_traced.
Qed.

(** C6.  Every query opens the source with [O_RDONLY] and nothing else:
    either the open fails and that is the only VFS call, or the calls
    are open, one read of at most 15 bytes at offset 0, and close.  In
    both cases the file system, the number of open files, the
    registries and the provider's globals are as before the query. *)
Theorem temp1_input_show_frame w dev attr :
  let w' := snd (temp1_input_show dev attr w) in
  same_state w w' /\
  ((trace w' = trace w ++ calls_open_failed /\
    (vfs w !! TEMP_FILE = None \/ exists e, vfs w !! TEMP_FILE = Some (Denied e)))
   \/ trace w' = trace w ++ calls_open_read_close).
Proof.
  cbv zeta.
  destruct (vfs w !! TEMP_FILE) as [[data | e | e] |] eqn:Hfile.
  - rewrite (show_regular dev attr w data Hfile). cbn [snd].
    split; [apply same_state_traced | right; destruct w; reflexivity].
  - rewrite (show_denied dev attr w e Hfile). cbn [snd].
    split; [apply same_state_traced | left].
    split; [destruct w; reflexivity | eauto].
  - rewrite (show_faulty dev attr w e Hfile). cbn [snd].
    split; [apply same_state_traced | right; destruct w; reflexivity].
  - rewrite (show_missing dev attr w Hfile). cbn [snd].
    split; [apply same_state_traced | left].
    split; [destruct w; reflexivity | eauto].
Qed.

(** * Only the first 15 bytes count *)

Lemma show_by_source w1 w2 dev1 dev2 attr1 attr2 :
  vfs w1 !! TEMP_FILE = vfs w2 !! TEMP_FILE ->
  fst (temp1_input_show dev1 attr1 w1) = fst (temp1_input_show dev2 attr2 w2).
Proof.
  intros E.
  destruct (vfs w2 !! TEMP_FILE) as [[data | e | e] |] eqn:H2.
  - rewrite (show_regular _ _ w1 data E), (show_regular _ _ w2 data H2).
    reflexivity.
  - rewrite (show_denied _ _ w1 e E), (show_denied _ _ w2 e H2). reflexivity.
  - rewrite (show_faulty _ _ w1 e E), (show_faulty _ _ w2 e H2). reflexivity.
  - rewrite (show_missing _ _ w1 E), (show_missing _ _ w2 H2). reflexivity.
Qed.

(** X2.  When the first 15 bytes of the file are of the form [kstrtoint]
    takes (an optional sign '+' or '-', digits, at most one line feed,
    ending at the last byte read or at a NUL byte) and denote a value
    that fits an int, [temp1_input_show] prints that value. *)
Theorem temp1_input_show_accepted w dev attr data v :
  vfs w !! TEMP_FILE = Some (Regular data) ->
  kstrto_text (take 15 data) v ->
  fst (temp1_input_show dev attr w)
  = (fmt_d v ++ [LF], Z.of_nat (length (fmt_d v ++ [LF]))).
Proof.
  intros Hfile Hv. rewrite (show_regular dev attr w data Hfile). cbn [fst].
  rewrite (reading_accepted data v Hv). apply sprintf_d.
Qed.

(** C9, as amended.  [temp1_input_show] looks at no more than the first
    15 bytes of the file: a query on any other file with the same first
    15 bytes (in particular the file cut to them) gives the same result.
    It prints 0 whenever those bytes are not of the form [kstrtoint]
    takes, that is an optional sign '+' or '-', one or more decimal
    digits and at most one line feed, ending at the last byte read or at
    a NUL byte, with a value that fits a 32-bit signed int. *)
Theorem temp1_input_show_first_15_bytes w dev attr data :
  vfs w !! TEMP_FILE = Some (Regular data) ->
  (forall w' dev' attr' data',
     vfs w' !! TEMP_FILE = Some (Regular data') ->
     take 15 data' = take 15 data ->
     fst (temp1_input_show dev' attr' w') = fst (temp1_input_show dev attr w)) /\
  fst (temp1_input_show dev attr w)
  = fst (temp1_input_show dev attr
           (set_vfs (<[TEMP_FILE := Regular (take 15 data)]> (vfs w)) w)) /\
  ((forall v, ~ kstrto_text (take 15 data) v) ->
   fst (temp1_input_show dev attr w) = (lit "0" ++ [LF], 2)).
Proof.
  intros Hfile. split_and!.
  - intros w' dev' attr' data' Hfile' Hsame.
    rewrite (show_regular dev attr w data Hfile).
    rewrite (show_regular dev' attr' w' data' Hfile'). cbn [fst].
    now rewrite <- (reading_prefix data'), Hsame, reading_prefix.
  - rewrite (show_regular dev attr w data Hfile).
    rewrite (show_regular dev attr _ (take 15 data)).
    + cbn [fst]. now rewrite reading_prefix.
    + destruct w. cbn [vfs set_vfs]. apply lookup_insert_eq.
  - intros Hno. rewrite (show_regular dev attr w data Hfile). cbn [fst].
    rewrite (reading_rejected data Hno). reflexivity.
Qed.

Lemma temp1_input_show_sixteen_digits :
  let data := lit "000000000000042000" in
  let data' := lit "000000000000042999" in
  let wide := lit "1234567890123456" in
  vfs (world_with (Regular data)) !! TEMP_FILE = Some (Regular data) /\
  fst (temp1_input_show dev0 attr0 (world_with (Regular data')))
    = fst (temp1_input_show dev0 attr0 (world_with (Regular data))) /\
  fst (temp1_input_show dev0 attr0 (world_with (Regular data)))
    = (lit "42" ++ [LF], 3) /\
  vfs (world_with (Regular wide)) !! TEMP_FILE = Some (Regular wide) /\
  (forall v, ~ kstrto_text (take 15 wide) v) /\
  fst (temp1_input_show dev0 attr0 (world_with (Regular wide)))
    = (lit "0" ++ [LF], 2).
Proof.
  cbv zeta.
  assert (H1 : vfs (world_with (Regular (lit "000000000000042000"))) !! TEMP_FILE
               = Some (Regular (lit "000000000000042000")))
    by (vm_compute; reflexivity).
  assert (H1' : vfs (world_with (Regular (lit "000000000000042999")))
                  !! TEMP_FILE
                = Some (Regular (lit "000000000000042999")))
    by (vm_compute; reflexivity).
  assert (H2 : vfs (world_with (Regular (lit "1234567890123456"))) !! TEMP_FILE
               = Some (Regular (lit "1234567890123456")))
    by (vm_compute; reflexivity).
  assert (H3 : forall v, ~ kstrto_text (take 15 (lit "1234567890123456")) v).
  { apply kstrto_text_rejected; [cbn; lia | vm_compute; reflexivity]. }
  split; [exact H1 |]. split.
  { exact (proj1 (temp1_input_show_first_15_bytes _ dev0 attr0 _ H1)
             _ dev0 attr0 _ H1' eq_refl). }
  split; [vm_compute; reflexivity |].
  split; [exact H2 |]. split; [exact H3 |].
  exact (proj2 (proj2 (temp1_input_show_first_15_bytes _ dev0 attr0 _ H2)) H3).
Defined.

(** C9 as stated fails: the seven bytes '4' '2' NUL 'j' 'u' 'n' 'k' are
    not the decimal representation of an integer, and the callback prints
    42.  (So it does for "42" followed by a line feed, and for "+42".) *)
Lemma temp1_input_show_stops_at_nul :
  let data := lit "42" ++ NUL :: lit "junk" in
  spec_int_text (take 15 data) = false /\
  fst (temp1_input_show dev0 attr0 (world_with (Regular data)))
    = (lit "42" ++ [LF], 3) /\
  fst (temp1_input_show dev0 attr0 (world_with (Regular data)))
    <> (lit "0" ++ [LF], 2).
Proof.
  cbv zeta. split_and!.
  - reflexivity.
  - vm_compute. reflexivity.
  - vm_compute. discriminate.
Qed.

Example temp1_input_show_line_feed :
  spec_int_text (lit "42000" ++ [LF]) = false /\
  fst (temp1_input_show dev0 attr0 (world_with (Regular (lit "42000" ++ [LF]))))
    = (lit "42000" ++ [LF], 6).
Proof. split; vm_compute; reflexivity. Qed.

Example temp1_input_show_plus_sign :
  spec_int_text (lit "+42") = false /\
  fst (temp1_input_show dev0 attr0 (world_with (Regular (lit "+42"))))
    = (lit "42" ++ [LF], 3).
Proof. split; vm_compute; reflexivity. Qed.

(** * Determinism *)

(** C10.  The text and the count produced by [temp1_input_show] depend on
    nothing but what the file system holds at the source path: two
    queries in states that agree there produce the same bytes, whatever
    their [dev] and [attr] arguments; and since a query leaves the file
    system as it was, a query that follows another one in the same file
    state repeats its output. *)
Theorem temp1_input_show_deterministic w1 w2 dev1 dev2 attr1 attr2 :
  vfs w1 !! TEMP_FILE = vfs w2 !! TEMP_FILE ->
  fst (temp1_input_show dev1 attr1 w1) = fst (temp1_input_show dev2 attr2 w2) /\
  fst (temp1_input_show dev2 attr2 (snd (temp1_input_show dev1 attr1 w1)))
  = fst (temp1_input_show dev1 attr1 w1).
Proof.
  intros E. split; [apply show_by_source, E |].
  apply show_by_source.
  destruct (show_same_state w1 dev1 attr1) as (-> & _).
  reflexivity.
Qed.

Lemma temp1_input_show_same_source :
  let w1 := world_with (Regular (lit "42000")) in
  let w2 := World {[ TEMP_FILE := Regular (lit "42000") ]} 3 [] ["other"]
                  [] [] NULL NULL [] (Host None (Some 12%positive) None) in
  vfs w1 !! TEMP_FILE = vfs w2 !! TEMP_FILE /\
  fst (temp1_input_show dev0 attr0 w1)
  = fst (temp1_input_show dev0 (DeviceAttribute "x" 0) w2) /\
  fst (temp1_input_show dev0 (DeviceAttribute "x" 0)
         (snd (temp1_input_show dev0 attr0 w1)))
  = fst (temp1_input_show dev0 attr0 w1).
Proof.
  cbv zeta.
  assert (H : vfs (world_with (Regular (lit "42000"))) !! TEMP_FILE
              = vfs (World {[ TEMP_FILE := Regular (lit "42000") ]} 3 []
                       ["other"] [] [] NULL NULL []
                       (Host None (Some 12%positive) None)) !! TEMP_FILE)
    by reflexivity.
  split; [exact H |].
  exact (temp1_input_show_deterministic _ _ dev0 dev0 attr0
           (DeviceAttribute "x" 0) H).
Defined.

(** * Registration *)

Lemma filter_none_id {A} (P : A -> Prop) `{!forall x, Decision (P x)} (l : list A) :
  filter P l = [] -> filter (fun x => ~ P x) l = l.
Proof.
  induction l as [| x l IH]; [reflexivity |].
  rewrite filter_cons. destruct (decide (P x)) as [HP | HP]; [discriminate |].
  intros E. rewrite filter_cons_True by exact HP. f_equal. auto.
Qed.

Lemma driver_attach_none devs w :
  filter (fun d => pd_name d = DRIVER_NAME) devs = [] ->
  driver_attach gpu_temp_driver devs w = (tt, w).
Proof.
  induction devs as [| d devs IH]; [reflexivity |].
  rewrite filter_cons. cbn [driver_attach drv_name gpu_temp_driver].
  destruct (decide (pd_name d = DRIVER_NAME)); [discriminate |].
  intros E. unfold kbind, kret. apply IH, E.
Qed.

Lemma platform_driver_register_failed w e :
  drv_reg (host_cfg w) = Some e ->
  platform_driver_register gpu_temp_driver w = (Z.neg e, w).
Proof.
  intros H. unfold platform_driver_register, kbind, kget. rewrite H. reflexivity.
Qed.

Lemma platform_driver_register_done w :
  drv_reg (host_cfg w) = None -> own_drivers w = [] -> own_devices w = [] ->
  platform_driver_register gpu_temp_driver w
  = (0, set_drivers (DRIVER_NAME :: drivers w) w).
Proof.
  intros H Hdrv Hdev. unfold platform_driver_register, kbind, kget. rewrite H.
  rewrite decide_False
    by (apply (filter_nil_not_elem_of _ _ _ Hdrv); reflexivity).
  unfold kmodify. rewrite driver_attach_none by exact Hdev. reflexivity.
Qed.

Lemma platform_driver_register_inv w r w1 :
  platform_driver_register gpu_temp_driver w = (r, w1) ->
  (r < 0 /\ w1 = w) \/ (r = 0 /\ drv_reg (host_cfg w) = None).
Proof.
  unfold platform_driver_register, kbind, kget.
  destruct (drv_reg (host_cfg w)) as [e |].
  - intros [= <- <-]. left. split; [lia | reflexivity].
  - destruct (decide _).
    + intros [= <- <-]. left. split; [lia | reflexivity].
    + unfold kmodify. destruct (driver_attach _ _ _) as [[] w2].
      intros [= <- <-]. right. auto.
Qed.

Lemma platform_device_register_inv w e :
  fst (platform_device_register_simple driver_table DRIVER_NAME (-1) NULL 0 w)
    = ERR_PTR e ->
  e < 0 /\
  platform_device_register_simple driver_table DRIVER_NAME (-1) NULL 0 w
    = (ERR_PTR e, w).
Proof.
  unfold platform_device_register_simple, kbind, kget.
  destruct (dev_reg (host_cfg w)) as [e' |].
  - intros [= <-]. split; [lia | reflexivity].
  - destruct (decide _).
    + intros [= <-]. split; [lia | reflexivity].
    + unfold kmodify. destruct (decide _).
      * destruct (driver_table DRIVER_NAME) as [drv |];
          [destruct (really_probe _ _ _) as [[] w2] |]; discriminate.
      * discriminate.
Qed.

Lemma platform_driver_unregister_idle w :
  own_devices w = [] ->
  platform_driver_unregister gpu_temp_driver w
  = (tt, set_drivers (filter (fun n => n <> DRIVER_NAME) (drivers w)) w).
Proof.
  intros H. unfold platform_driver_unregister, kbind, kget.
  change (filter (fun dev => pd_name dev = drv_name gpu_temp_driver) (devices w))
    with (own_devices w).
  rewrite H. reflexivity.
Qed.

Lemma own_hwmons_of_device w :
  own_hwmons w = [] ->
  filter (fun hd => hw_parent hd <> the_device) (hwmons w) = hwmons w.
Proof.
  unfold own_hwmons. generalize (hwmons w) as l.
  induction l as [| hd l IH]; [reflexivity |].
  rewrite !filter_cons.
  destruct (decide (pd_name (hw_parent hd) = DRIVER_NAME)); [discriminate |].
  intros E. destruct (decide (hw_parent hd <> the_device)) as [| Heq].
  - f_equal. auto.
  - destruct n. apply dec_stable in Heq. rewrite Heq. reflexivity.
Qed.

Lemma platform_device_register_done w :
  dev_reg (host_cfg w) = None ->
  own_devices w = [] -> own_hwmons w = [] -> DRIVER_NAME ∈ drivers w ->
  exists w',
    platform_device_register_simple driver_table DRIVER_NAME (-1) NULL 0 w
      = (Ptr the_device, w') /\
    drivers w' = drivers w /\ devices w' = the_device :: devices w /\
    pdev w' = pdev w /\
    (hwmons w' = hwmons w \/ hwmons w' = the_hwmon :: hwmons w).
Proof.
  intros Hreg Hdev Hhw Hdrv.
  pose proof (own_hwmons_of_device w Hhw) as Hfilter.
  unfold platform_device_register_simple, kbind, kget. rewrite Hreg.
  fold the_device.
  rewrite decide_False
    by (apply (filter_nil_not_elem_of _ _ _ Hdev); reflexivity).
  unfold kmodify.
  destruct w as [v n t drvs devs hws p hp kl h]. cbn [drivers] in *.
  rewrite decide_True by exact Hdrv.
  change (driver_table DRIVER_NAME) with (Some gpu_temp_driver).
  unfold really_probe, kbind, kret. cbn [drv_probe gpu_temp_driver].
  unfold gpu_temp_probe, devm_hwmon_device_register_with_groups,
    kbind, kget, kmodify, kret.
  cbn [host_cfg set_devices hwmons] in *.
  destruct (hwmon_reg h) as [e |]; cbn.
  - eexists. split; [reflexivity |]. cbn. rewrite Hfilter. auto 10.
  - eexists. split; [reflexivity |]. cbn. auto 10.
Qed.

Lemma filter_own_driver (l : list string) :
  filter (fun n => n = DRIVER_NAME) l = [] ->
  filter (fun n => n <> DRIVER_NAME) (DRIVER_NAME :: l) = l.
Proof.
  intros H. rewrite filter_cons_False by (intros Hne; now apply Hne).
  apply (filter_none_id (fun n => n = DRIVER_NAME)), H.
Qed.

(** A failing attach: the error comes back and the registries are as
    they were. *)
Lemma gpu_temp_init_failure w e :
  unregistered w -> attach_fails w e ->
  exists w',
    gpu_temp_init w = (e, w') /\ e <> 0 /\
    drivers w' = drivers w /\ devices w' = devices w /\ hwmons w' = hwmons w.
Proof.
  intros (Hdrv & Hdev & Hhw) [Hfst Hne | w1 Hreg Hfail].
  - destruct (platform_driver_register gpu_temp_driver w) as [r w1] eqn:E.
    cbn [fst] in Hfst. subst r.
    destruct (platform_driver_register_inv w e w1 E) as [[_ ->] | [-> _]];
      [| congruence].
    exists w. unfold gpu_temp_init, kbind. rewrite E.
    destruct (Z.eqb_spec e 0); [congruence |]. cbn. auto.
  - destruct (platform_driver_register_inv w 0 w1 Hreg) as [[? _] | [_ Hok]];
      [lia |].
    rewrite (platform_driver_register_done w Hok Hdrv Hdev) in Hreg.
    injection Hreg as <-.
    destruct (platform_device_register_inv _ e Hfail) as [He Hrun].
    unfold gpu_temp_init, kbind.
    rewrite (platform_driver_register_done w Hok Hdrv Hdev).
    cbn [Z.eqb negb]. rewrite Hrun. unfold kmodify, kret. cbn [IS_ERR PTR_ERR].
    rewrite platform_driver_unregister_idle
      by (destruct w; exact Hdev).
    eexists. split; [reflexivity |].
    split; [lia |]. destruct w. cbn in *.
    split_and!; try reflexivity.
    apply filter_own_driver, Hdrv.
Qed.

(** Every attach either fails as above or registers exactly the driver
    and the device, and at most the one hwmon device. *)
Lemma gpu_temp_init_spec w :
  unregistered w ->
  exists r w',
    gpu_temp_init w = (r, w') /\
    ((r < 0 /\ attach_fails w r /\
      drivers w' = drivers w /\ devices w' = devices w /\ hwmons w' = hwmons w)
     \/ (r = 0 /\ drivers w' = DRIVER_NAME :: drivers w /\
         devices w' = the_device :: devices w /\ pdev w' = Ptr the_device /\
         (hwmons w' = hwmons w \/ hwmons w' = the_hwmon :: hwmons w))).
Proof.
  intros Hun. pose proof Hun as (Hdrv & Hdev & Hhw).
  assert (Hfail : forall e, e < 0 -> attach_fails w e ->
            exists r w', gpu_temp_init w = (r, w') /\
              ((r < 0 /\ attach_fails w r /\ drivers w' = drivers w /\
                devices w' = devices w /\ hwmons w' = hwmons w)
               \/ (r = 0 /\ drivers w' = DRIVER_NAME :: drivers w /\
                   devices w' = the_device :: devices w /\
                   pdev w' = Ptr the_device /\
                   (hwmons w' = hwmons w \/ hwmons w' = the_hwmon :: hwmons w)))).
  { intros e He Hfl.
    destruct (gpu_temp_init_failure w e Hun Hfl) as (w' & E & _ & H1 & H2 & H3).
    exists e, w'. split; [exact E |]. left. auto 10. }
  destruct (drv_reg (host_cfg w)) as [e |] eqn:Hreg.
  { apply (Hfail (Z.neg e)); [lia |]. apply driver_step_fails; [| lia].
    now rewrite (platform_driver_register_failed w e Hreg). }
  pose proof (platform_driver_register_done w Hreg Hdrv Hdev) as Hstep1.
  set (w1 := set_drivers (DRIVER_NAME :: drivers w) w) in *.
  destruct (dev_reg (host_cfg w)) as [e |] eqn:Hreg2.
  { apply (Hfail (Z.neg e)); [lia |]. apply (device_step_fails w _ w1 Hstep1).
    unfold platform_device_register_simple, kbind, kget.
    replace (dev_reg (host_cfg w1)) with (Some e)
      by (destruct w; symmetry; exact Hreg2).
    reflexivity. }
  destruct (platform_device_register_done w1) as (w2 & Hrun & H1 & H2 & H3 & H4).
  { destruct w; exact Hreg2. }
  { destruct w; exact Hdev. }
  { destruct w; exact Hhw. }
  { destruct w; cbn. left. }
  exists 0. unfold gpu_temp_init, kbind. rewrite Hstep1. cbn [Z.eqb negb].
  rewrite Hrun. unfold kmodify, printk, kmodify, kret. cbn [IS_ERR].
  eexists. split; [reflexivity |]. right.
  destruct w, w2. cbn in *. subst. auto 10.
Qed.

(** C7.  If a registration step of [gpu_temp_init] fails (the driver
    registration returns a non-zero code, or the device registration
    returns an error pointer), [gpu_temp_init] returns that non-zero code,
    and the registries of drivers, devices and hwmon devices are what
    they were before the call: after a failed device registration the
    driver has been unregistered again. *)
Theorem gpu_temp_init_propagates_error w e :
  unregistered w -> attach_fails w e ->
  exists w',
    gpu_temp_init w = (e, w') /\ e <> 0 /\
    drivers w' = drivers w /\ devices w' = devices w /\ hwmons w' = hwmons w.
Proof. apply gpu_temp_init_failure. Qed.

Lemma gpu_temp_init_enomem :
  let w := world0 ∅ (Host None (Some 12%positive) None) in
  unregistered w /\ attach_fails w (-12) /\
  exists w',
    gpu_temp_init w = (-12, w') /\ -12 <> 0 /\
    drivers w' = drivers w /\ devices w' = devices w /\ hwmons w' = hwmons w.
Proof.
  cbv zeta.
  assert (H1 : unregistered (world0 ∅ (Host None (Some 12%positive) None)))
    by (repeat split).
  assert (H2 : attach_fails (world0 ∅ (Host None (Some 12%positive) None)) (-12)).
  { eapply device_step_fails; [reflexivity |]. reflexivity. }
  split; [exact H1 |]. split; [exact H2 |].
  exact (gpu_temp_init_propagates_error _ _ H1 H2).
Defined.

(** * Detach *)

Lemma filter_filter_nil {A} (P Q : A -> Prop)
    `{!forall x, Decision (P x)} `{!forall x, Decision (Q x)} (l : list A) :
  (forall x, x ∈ l -> P x -> ~ Q x) -> filter P (filter Q l) = [].
Proof.
  induction l as [| x l IH]; intros Hall; [reflexivity |].
  assert (Hl : forall y, y ∈ l -> P y -> ~ Q y)
    by (intros y Hy; apply Hall; now right).
  rewrite (filter_cons Q). destruct (decide (Q x)) as [HQ | HQ]; [| auto].
  rewrite filter_cons_False; [auto |].
  intros HP. exact (Hall x ltac:(left) HP HQ).
Qed.

Lemma filter_keeps {A} (P : A -> Prop) `{!forall x, Decision (P x)}
    (l : list A) x :
  x ∈ l -> P x -> x ∈ filter P l.
Proof. intros. apply list_elem_of_filter. auto. Qed.

Lemma gpu_temp_exit_spec w :
  registered w -> pdev w = Ptr the_device ->
  Forall (fun hd => hw_parent hd = the_device) (own_hwmons w) ->
  exists w', gpu_temp_exit w = (tt, w') /\ unregistered w'.
Proof.
  intros (Hdrv & Hdev & _) Hp Hhw.
  assert (Hgone : filter (fun d => pd_name d = DRIVER_NAME)
                    (filter (fun d => d <> the_device) (devices w)) = []).
  { apply filter_filter_nil. intros d Hd Hname Hne.
    assert (Hin : d ∈ own_devices w) by (apply filter_keeps; assumption).
    rewrite Hdev in Hin. apply list_elem_of_singleton in Hin. contradiction. }
  unfold gpu_temp_exit, kbind, kget. rewrite Hp.
  unfold platform_device_unregister, devres_release_all, kbind, kmodify.
  rewrite platform_driver_unregister_idle by (destruct w; exact Hgone).
  unfold printk, kmodify. eexists. split; [reflexivity |].
  destruct w as [v n t drvs devs hws p hp kl h].
  unfold unregistered, own_drivers, own_devices, own_hwmons in *. cbn in *.
  split_and!.
  - apply filter_filter_nil. intros x _ Hx Hne. contradiction.
  - exact Hgone.
  - apply filter_filter_nil. intros hd Hin Hname Hne.
    rewrite Forall_forall in Hhw. apply Hne, Hhw.
    apply filter_keeps; assumption.
Qed.

(** * The lifecycle *)

Lemma show_registries a dev w out w' :
  a ∈ gpu_temp_attrs ->
  show a dev (dev_attr a) w = (out, w') ->
  drivers w' = drivers w /\ devices w' = devices w /\
  hwmons w' = hwmons w /\ pdev w' = pdev w.
Proof.
  unfold gpu_temp_attrs. rewrite !elem_of_cons, elem_of_nil.
  intros [-> | [-> | [-> | []]]]; cbn [show sensor_dev_attr_temp1_input
    sensor_dev_attr_temp1_max sensor_dev_attr_temp1_crit]; intros E.
  - pose proof (show_same_state w dev
      (dev_attr sensor_dev_attr_temp1_input)) as Hsame.
    rewrite E in Hsame.
    cbn [snd] in Hsame. unfold same_state in Hsame. tauto.
  - injection E as _ <-. auto.
  - injection E as _ <-. auto.
Qed.

Lemma lifecycle_inv_same p w w' :
  drivers w' = drivers w -> devices w' = devices w ->
  hwmons w' = hwmons w -> pdev w' = pdev w ->
  lifecycle_inv (p, w) -> lifecycle_inv (p, w').
Proof.
  unfold lifecycle_inv, registered, unregistered,
    own_drivers, own_devices, own_hwmons. cbn [fst snd].
  intros -> -> -> ->. auto.
Qed.

Lemma unregistered_same w w' :
  drivers w' = drivers w -> devices w' = devices w ->
  hwmons w' = hwmons w -> unregistered w -> unregistered w'.
Proof.
  unfold unregistered, own_drivers, own_devices, own_hwmons.
  intros -> -> ->. auto.
Qed.

(** What a successful attach establishes. *)
Lemma attach_registers w w' :
  unregistered w ->
  drivers w' = DRIVER_NAME :: drivers w ->
  devices w' = the_device :: devices w ->
  pdev w' = Ptr the_device ->
  hwmons w' = hwmons w \/ hwmons w' = the_hwmon :: hwmons w ->
  lifecycle_inv (Live, w').
Proof.
  unfold lifecycle_inv, registered, unregistered,
    own_drivers, own_devices, own_hwmons. cbn [fst snd].
  intros (Hdrv & Hdev & Hhw) -> -> -> Hh.
  rewrite !filter_cons_True by reflexivity. rewrite Hdrv, Hdev.
  split_and!; try reflexivity.
  - destruct Hh as [-> | ->]; [rewrite Hhw; cbn; lia |].
    rewrite filter_cons_True by reflexivity. rewrite Hhw. cbn. lia.
  - destruct Hh as [-> | ->]; [rewrite Hhw; constructor |].
    rewrite filter_cons_True by reflexivity. rewrite Hhw.
    repeat constructor.
Qed.

Lemma step_inv s s' : lifecycle_inv s -> step s s' -> lifecycle_inv s'.
Proof.
  intros Hinv Hstep. destruct Hstep as [w r w' E | w a dev out w' Ha E | w w' E | p w v].
  - cbn in Hinv. destruct (gpu_temp_init_spec w Hinv) as (r0 & w0 & E0 & Hcase).
    rewrite E in E0. injection E0 as <- <-.
    destruct Hcase as [(Hr & _ & H1 & H2 & H3) | (-> & H1 & H2 & H3 & H4)].
    + destruct (Z.ltb_spec r 0); [| lia].
      exact (unregistered_same w w' H1 H2 H3 Hinv).
    + cbn [Z.ltb Z.compare]. exact (attach_registers w w' Hinv H1 H2 H3 H4).
  - destruct (show_registries a dev w out w' Ha E) as (H1 & H2 & H3 & H4).
    exact (lifecycle_inv_same Live w w' H1 H2 H3 H4 Hinv).
  - destruct Hinv as (Hreg & Hp & Hhw). cbn [snd] in *.
    destruct (gpu_temp_exit_spec w Hreg Hp Hhw) as (w0 & E0 & Hun).
    rewrite E in E0. injection E0 as <-. exact Hun.
  - apply (lifecycle_inv_same p w); try (destruct w; reflexivity). exact Hinv.
Qed.

Lemma rtc_step_inv s s' : lifecycle_inv s -> rtc step s s' -> lifecycle_inv s'.
Proof.
  intros Hinv Hrtc. induction Hrtc as [| x y z Hxy _ IH]; [exact Hinv |].
  apply IH. exact (step_inv x y Hinv Hxy).
Qed.

Lemma reachable_inv s : reachable s -> lifecycle_inv s.
Proof.
  intros ([p0 w0] & (Hp & Hun & _) & Hrtc). apply (rtc_step_inv (p0, w0)); [| exact Hrtc].
  cbn [fst snd] in *. subst p0. exact Hun.
Qed.

(** Once gone, always gone. *)
Lemma gone_forever s s' : fst s = Gone -> rtc step s s' -> fst s' = Gone.
Proof.
  intros Hg Hrtc. induction Hrtc as [| x y z Hxy _ IH]; [exact Hg |].
  apply IH. destruct Hxy; cbn [fst] in *; congruence.
Qed.

Lemma registered_not_unregistered w : registered w -> ~ unregistered w.
Proof. intros (H & _) (H' & _). rewrite H in H'. discriminate. Qed.

(** C8.  In every state the loader can reach, the provider holds at most
    one registration of each kind (driver, platform device, hwmon
    device); it is registered exactly while the module is live.  A step
    either keeps the phase (a query, or a change of the file system), or
    is a successful attach from the not-loaded phase to the live one, a
    failed attach from the not-loaded phase to the final one, or the
    detach from the live phase to the final one; and from the final phase
    no step leads back to a registered state. *)
Theorem lifecycle_single_registration s :
  reachable s ->
  (length (own_drivers (snd s)) <= 1 /\ length (own_devices (snd s)) <= 1 /\
   length (own_hwmons (snd s)) <= 1)%nat /\
  (fst s = Live <-> registered (snd s)) /\
  (fst s <> Live <-> unregistered (snd s)) /\
  (forall s', step s s' ->
     fst s' = fst s \/
     (fst s = NotLoaded /\ fst s' = Live /\ fst (gpu_temp_init (snd s)) = 0) \/
     (fst s = NotLoaded /\ fst s' = Gone /\ fst (gpu_temp_init (snd s)) < 0) \/
     (fst s = Live /\ fst s' = Gone /\ snd s' = snd (gpu_temp_exit (snd s)))) /\
  (forall s', rtc step s s' -> fst s = Gone ->
     fst s' = Gone /\ unregistered (snd s')).
Proof.
  intros Hreach. pose proof (reachable_inv s Hreach) as Hinv.
  assert (Hcls : (fst s = Live /\ registered (snd s)) \/
                 (fst s <> Live /\ unregistered (snd s))).
  { unfold lifecycle_inv in Hinv. destruct (fst s); [right | left | right];
      (split; [congruence || reflexivity | tauto]). }
  refine (conj _ (conj _ (conj _ (conj _ _)))).
  - destruct Hcls as [[_ (H1 & H2 & H3)] | [_ (H1 & H2 & H3)]].
    + rewrite H1, H2. cbn [length]. lia.
    + rewrite H1, H2, H3. cbn [length]. lia.
  - destruct Hcls as [[Hp Hr] | [Hp Hu]]; split; intros H; try tauto.
    destruct (registered_not_unregistered _ H Hu).
  - destruct Hcls as [[Hp Hr] | [Hp Hu]]; split; intros H; try tauto.
    destruct (registered_not_unregistered _ Hr H).
  - intros s' Hstep.
    destruct Hstep as [w r w' E | w a dev out w' Ha E | w w' E | p w v];
      cbn [fst snd] in *; [| left; reflexivity | | left; reflexivity].
    + right. rewrite E. cbn [fst].
      destruct (gpu_temp_init_spec w Hinv) as (r0 & w0 & E0 & Hcase).
      rewrite E in E0. injection E0 as <- <-.
      destruct Hcase as [(Hr & _) | (-> & _)].
      * destruct (Z.ltb_spec r 0); [| lia]. right. left. auto.
      * cbn [Z.ltb Z.compare]. left. auto.
    + right. right. right. rewrite E. auto.
  - intros s' Hrtc Hgone.
    pose proof (gone_forever s s' Hgone Hrtc) as Hg'.
    pose proof (rtc_step_inv s s' Hinv Hrtc) as Hinv'.
    unfold lifecycle_inv in Hinv'. rewrite Hg' in Hinv'. auto.
Qed.

Lemma lifecycle_after_load :
  let s := (Live, snd (gpu_temp_init world_without)) in
  reachable s /\
  (length (own_drivers (snd s)) <= 1 /\ length (own_devices (snd s)) <= 1 /\
   length (own_hwmons (snd s)) <= 1)%nat /\
  (fst s = Live <-> registered (snd s)) /\
  (fst s <> Live <-> unregistered (snd s)) /\
  (forall s', step s s' ->
     fst s' = fst s \/
     (fst s = NotLoaded /\ fst s' = Live /\ fst (gpu_temp_init (snd s)) = 0) \/
     (fst s = NotLoaded /\ fst s' = Gone /\ fst (gpu_temp_init (snd s)) < 0) \/
     (fst s = Live /\ fst s' = Gone /\ snd s' = snd (gpu_temp_exit (snd s)))) /\
  (forall s', rtc step s s' -> fst s = Gone ->
     fst s' = Gone /\ unregistered (snd s')).
Proof.
  cbv zeta.
  assert (H : reachable (Live, snd (gpu_temp_init world_without))).
  { exists (NotLoaded, world_without). split; [repeat split |].
    apply rtc_once.
    exact (step_load world_without 0 (snd (gpu_temp_init world_without))
             eq_refl). }
  split; [exact H |].
  exact (lifecycle_single_registration _ H).
Defined.


(** * Further properties of the current reading *)

Lemma temp1_input_show_plus_42 :
  let data := lit "+42" ++ [LF] in
  vfs (world_with (Regular data)) !! TEMP_FILE = Some (Regular data) /\
  kstrto_text (take 15 data) 42 /\
  fst (temp1_input_show dev0 attr0 (world_with (Regular data)))
  = (lit "42" ++ [LF], 3).
Proof.
  cbv zeta.
  assert (H1 : vfs (world_with (Regular (lit "+42" ++ [LF]))) !! TEMP_FILE
               = Some (Regular (lit "+42" ++ [LF]))) by (vm_compute; reflexivity).
  assert (H2 : kstrto_text (take 15 (lit "+42" ++ [LF])) 42).
  { apply (KstrtoText _ _ (lit "+") (lit "42") [LF] []); auto.
    unfold in_int, INT_MIN, INT_MAX. lia. }
  split; [exact H1 |]. split; [exact H2 |].
  exact (temp1_input_show_accepted _ dev0 attr0 _ _ H1 H2).
Defined.

Lemma kstrto_text_eol s N eol :
  spec_decimal_value s = Some N -> in_int N -> eol = [] \/ eol = [LF] ->
  kstrto_text (s ++ eol) N.
Proof.
  intros H HN Heol. destruct (spec_decimal_value_inv s N H)
    as [(ds & -> & Hall & ->) | (Hall & ->)].
  - apply (KstrtoText _ _ ["-"%char] ds eol []); auto;
      try (now rewrite app_nil_r); try (now rewrite decide_True).
  - apply (KstrtoText _ _ [] s eol []); auto;
      try (now rewrite app_nil_r); try (now rewrite decide_False).
Qed.

(** X1.  [temp1_input_show] reads back what [%d] prints: when the file
    holds the text [sprintf] writes for an int N, with or without the
    newline, the callback prints that text and a newline.  So its own
    output, stored in the file, is reproduced by the next query. *)
Theorem temp1_input_show_reads_back w dev attr N data :
  in_int N ->
  data = fmt_d N \/ data = fmt_d N ++ [LF] ->
  vfs w !! TEMP_FILE = Some (Regular data) ->
  fst (temp1_input_show dev attr w)
  = (fmt_d N ++ [LF], Z.of_nat (length (fmt_d N ++ [LF]))).
Proof.
  intros HN Hdata Hfile. destruct (fmt_d_decimal N HN) as [Hval Hlen].
  rewrite (show_regular dev attr w data Hfile). cbn [fst].
  rewrite (reading_accepted data N); [apply sprintf_d |].
  destruct Hdata as [-> | ->].
  - rewrite take_ge by lia. rewrite <- (app_nil_r (fmt_d N)).
    apply kstrto_text_eol; auto.
  - rewrite take_ge by (rewrite length_app; cbn [length]; lia).
    apply kstrto_text_eol; auto.
Qed.

Lemma temp1_input_show_reads_back_minus_42000 :
  let data := lit "-42000" ++ [LF] in
  in_int (-42000) /\
  (data = fmt_d (-42000) \/ data = fmt_d (-42000) ++ [LF]) /\
  vfs (world_with (Regular data)) !! TEMP_FILE = Some (Regular data) /\
  fst (temp1_input_show dev0 attr0 (world_with (Regular data))) = (data, 7).
Proof.
  cbv zeta.
  assert (H1 : in_int (-42000)) by (unfold in_int, INT_MIN, INT_MAX; lia).
  assert (H2 : lit "-42000" ++ [LF] = fmt_d (-42000) \/
               lit "-42000" ++ [LF] = fmt_d (-42000) ++ [LF])
    by (right; reflexivity).
  assert (H3 : vfs (world_with (Regular (lit "-42000" ++ [LF]))) !! TEMP_FILE
               = Some (Regular (lit "-42000" ++ [LF])))
    by (vm_compute; reflexivity).
  split; [exact H1 |]. split; [exact H2 |]. split; [exact H3 |].
  exact (temp1_input_show_reads_back _ dev0 attr0 _ _ H1 H2 H3).
Defined.

(** X4.  Nothing may precede the number: when the first byte of the file
    is neither a digit nor a sign (a blank, a line feed, a NUL byte, a
    letter), [temp1_input_show] prints 0, whatever follows. *)
Theorem temp1_input_show_leading_byte w dev attr c rest :
  vfs w !! TEMP_FILE = Some (Regular (c :: rest)) ->
  isdigit c = false -> c <> "+"%char -> c <> "-"%char ->
  fst (temp1_input_show dev attr w) = (lit "0" ++ [LF], 2).
Proof.
  intros Hfile Hc Hplus Hminus.
  rewrite (show_regular dev attr w _ Hfile). cbn [fst].
  rewrite reading_rejected; [reflexivity |].
  intros v [sign ds eol rest' E Hsign Hall _ _ _ _].
  change (take 15 (c :: rest)) with (c :: take 14 rest) in E.
  destruct Hsign as [-> | [-> | ->]]; cbn [app] in E.
  - destruct ds as [| d ds]; [discriminate Hall |].
    injection E as -> _. unfold all_digits in Hall. cbn in Hall.
    rewrite Hc in Hall. discriminate Hall.
  - injection E as -> _. congruence.
  - injection E as -> _. congruence.
Qed.

Lemma temp1_input_show_leading_blank :
  let data := lit " 42" in
  vfs (world_with (Regular data)) !! TEMP_FILE
    = Some (Regular (" "%char :: lit "42")) /\
  isdigit " " = false /\ " "%char <> "+"%char /\ " "%char <> "-"%char /\
  fst (temp1_input_show dev0 attr0 (world_with (Regular data)))
  = (lit "0" ++ [LF], 2).
Proof.
  cbv zeta.
  assert (H1 : vfs (world_with (Regular (lit " 42"))) !! TEMP_FILE
               = Some (Regular (" "%char :: lit "42")))
    by (vm_compute; reflexivity).
  assert (H2 : isdigit " " = false) by reflexivity.
  assert (H3 : " "%char <> "+"%char) by discriminate.
  assert (H4 : " "%char <> "-"%char) by discriminate.
  split; [exact H1 |]. split; [exact H2 |]. split; [exact H3 |].
  split; [exact H4 |].
  exact (temp1_input_show_leading_byte _ dev0 attr0 _ _ H1 H2 H3 H4).
Defined.

Lemma _kstrtoull_spoiled ds t r :
  forallb isdigit ds = true -> (length ds <= 17)%nat -> spoils t ->
  _kstrtoull (ds ++ t ++ [NUL]) 10 r = (- EINVAL, r).
Proof.
  intros Hd Hlen Ht. destruct t as [| c t]; [destruct Ht |].
  cbn [spoils] in Ht.
  assert (Hstop : isdigit (deref ((c :: t) ++ [NUL])) = false).
  { unfold deref. cbn [app hd].
    destruct (Ascii.eqb_spec c LF) as [-> |]; [reflexivity | apply Ht]. }
  rewrite _kstrtoull_run by assumption.
  destruct (Nat.eqb (length ds) 0); [reflexivity |]. cbv zeta.
  unfold deref. cbn [app hd tl].
  destruct (Ascii.eqb_spec c LF) as [-> | Hc].
  - destruct t as [| c' t]; [destruct Ht |]. cbn [app hd].
    destruct (Ascii.eqb_spec c' NUL); [contradiction | reflexivity].
  - cbn [hd]. destruct Ht as [_ Hnul].
    destruct (Ascii.eqb_spec c NUL); [contradiction | reflexivity].
Qed.

(** X5.  Nothing may follow the number but one line feed: for a file of
    at most 15 bytes that is an optional sign and one or more digits
    followed by a byte that is neither a digit, a line feed nor NUL (as
    in "42.5" or "42 C"), or by a line feed and a further byte that is
    not NUL (a second line), [temp1_input_show] prints 0. *)
Theorem temp1_input_show_spoiled w dev attr sign ds t :
  vfs w !! TEMP_FILE = Some (Regular (sign ++ ds ++ t)) ->
  sign = [] \/ sign = ["+"%char] \/ sign = ["-"%char] ->
  all_digits ds = true ->
  spoils t ->
  (length (sign ++ ds ++ t) <= 15)%nat ->
  fst (temp1_input_show dev attr w) = (lit "0" ++ [LF], 2).
Proof.
  intros Hfile Hsign Hall Ht Hlen.
  rewrite (show_regular dev attr w _ Hfile). cbn [fst].
  rewrite reading_failed; [reflexivity |].
  rewrite take_ge by exact Hlen. rewrite !length_app in Hlen.
  destruct (all_digits_forallb ds Hall) as [Hd Hne].
  assert (Hrun : forall r, _kstrtoull (ds ++ t ++ [NUL]) 10 r = (- EINVAL, r))
    by (intros r; apply _kstrtoull_spoiled; auto; lia).
  unfold kstrtoint, kstrtoll, kstrtoull. rewrite <- !app_assoc.
  destruct Hsign as [-> | [-> | ->]]; unfold deref; cbn [app hd tl].
  - destruct ds as [| d ds']; [congruence |].
    cbn [forallb] in Hd. apply andb_true_iff in Hd as [Hd0 _].
    destruct (digit_not_sign d Hd0) as [Hm Hp].
    cbn [app hd]. rewrite Hm, Hp.
    change (d :: ds' ++ t ++ [NUL]) with ((d :: ds') ++ t ++ [NUL]).
    rewrite Hrun. reflexivity.
  - change (Ascii.eqb "+" "-") with false.
    change (Ascii.eqb "+" "+") with true. cbv iota.
    rewrite Hrun. reflexivity.
  - change (Ascii.eqb "-" "-") with true. cbv iota.
    rewrite Hrun. reflexivity.
Qed.

Lemma temp1_input_show_decimal_point :
  let data := lit "42.5" in
  vfs (world_with (Regular data)) !! TEMP_FILE
    = Some (Regular ([] ++ lit "42" ++ lit ".5")) /\
  (@nil ascii = [] \/ @nil ascii = ["+"%char] \/ @nil ascii = ["-"%char]) /\
  all_digits (lit "42") = true /\
  spoils (lit ".5") /\
  (length ([] ++ lit "42" ++ lit ".5") <= 15)%nat /\
  fst (temp1_input_show dev0 attr0 (world_with (Regular data)))
  = (lit "0" ++ [LF], 2).
Proof.
  cbv zeta.
  assert (H1 : vfs (world_with (Regular (lit "42.5"))) !! TEMP_FILE
               = Some (Regular ([] ++ lit "42" ++ lit ".5")))
    by (vm_compute; reflexivity).
  assert (H2 : @nil ascii = [] \/ @nil ascii = ["+"%char] \/ @nil ascii = ["-"%char])
    by (left; reflexivity).
  assert (H3 : all_digits (lit "42") = true) by reflexivity.
  assert (H4 : spoils (lit ".5")) by (split; [reflexivity | discriminate]).
  assert (H5 : (length ([] ++ lit "42" ++ lit ".5") <= 15)%nat) by (cbn; lia).
  split; [exact H1 |]. split; [exact H2 |]. split; [exact H3 |].
  split; [exact H4 |]. split; [exact H5 |].
  exact (temp1_input_show_spoiled _ dev0 attr0 _ _ _ H1 H2 H3 H4 H5).
Defined.

Example temp1_input_show_two_lines :
  spoils (LF :: lit "50000" ++ [LF]) /\
  fst (temp1_input_show dev0 attr0
         (world_with (Regular (lit "42000" ++ LF :: lit "50000" ++ [LF]))))
  = (lit "0" ++ [LF], 2).
Proof. split; [discriminate | vm_compute; reflexivity]. Qed.

(** X6.  A number longer than the buffer is cut, not refused: when the
    file begins with 15 bytes that are an optional sign and digits, the
    callback prints the value of those 15 bytes (if it fits an int),
    even when more digits follow them in the file. *)
Theorem temp1_input_show_window w dev attr sign ds rest :
  vfs w !! TEMP_FILE = Some (Regular (sign ++ ds ++ rest)) ->
  sign = [] \/ sign = ["+"%char] \/ sign = ["-"%char] ->
  all_digits ds = true ->
  length (sign ++ ds) = 15%nat ->
  let v := if decide (sign = ["-"%char]) then - dec_val ds else dec_val ds in
  in_int v ->
  fst (temp1_input_show dev attr w)
  = (fmt_d v ++ [LF], Z.of_nat (length (fmt_d v ++ [LF]))).
Proof.
  intros Hfile Hsign Hall Hlen v Hv.
  rewrite (show_regular dev attr w _ Hfile). cbn [fst].
  rewrite (reading_accepted _ v); [apply sprintf_d |].
  rewrite app_assoc, <- Hlen, take_app_length.
  apply (KstrtoText _ _ sign ds [] []); auto.
  now rewrite app_nil_r.
Qed.

Lemma temp1_input_show_window_42 :
  let ds := lit "000000000000042" in
  let data := ds ++ lit "000" in
  vfs (world_with (Regular data)) !! TEMP_FILE
    = Some (Regular ([] ++ ds ++ lit "000")) /\
  (@nil ascii = [] \/ @nil ascii = ["+"%char] \/ @nil ascii = ["-"%char]) /\
  all_digits ds = true /\
  length ([] ++ ds) = 15%nat /\
  in_int (dec_val ds) /\
  spec_decimal_value data = Some 42000 /\
  fst (temp1_input_show dev0 attr0 (world_with (Regular data)))
  = (lit "42" ++ [LF], 3).
Proof.
  cbv zeta.
  assert (H1 : vfs (world_with (Regular (lit "000000000000042" ++ lit "000")))
                 !! TEMP_FILE
               = Some (Regular ([] ++ lit "000000000000042" ++ lit "000")))
    by (vm_compute; reflexivity).
  assert (H2 : @nil ascii = [] \/ @nil ascii = ["+"%char] \/ @nil ascii = ["-"%char])
    by (left; reflexivity).
  assert (H3 : all_digits (lit "000000000000042") = true) by reflexivity.
  assert (H4 : length ([] ++ lit "000000000000042") = 15%nat) by reflexivity.
  assert (H5 : in_int (dec_val (lit "000000000000042")))
    by (vm_compute; split; discriminate).
  split; [exact H1 |]. split; [exact H2 |]. split; [exact H3 |].
  split; [exact H4 |]. split; [exact H5 |]. split; [reflexivity |].
  exact (temp1_input_show_window _ dev0 attr0 _ _ _ H1 H2 H3 H4 H5).
Defined.

(** * The attribute table *)

Lemma fmt_d_length v : in_int v -> (1 <= length (fmt_d v) <= 11)%nat.
Proof.
  intros Hv. destruct (fmt_d_decimal v Hv) as [Hval Hlen]. split; [| exact Hlen].
  destruct (fmt_d v); [discriminate Hval | cbn [length]; lia].
Qed.

Lemma show_value w dev attr :
  exists v, in_int v /\
    fst (temp1_input_show dev attr w)
    = (fmt_d v ++ [LF], Z.of_nat (length (fmt_d v ++ [LF]))).
Proof.
  assert (Hzero : in_int 0) by (unfold in_int, INT_MIN, INT_MAX; lia).
  destruct (vfs w !! TEMP_FILE) as [[data | e | e] |] eqn:Hfile.
  - exists (reading data). rewrite (show_regular dev attr w data Hfile).
    split; [apply reading_in_int | apply sprintf_d].
  - exists 0. rewrite (show_denied dev attr w e Hfile). auto.
  - exists 0. rewrite (show_faulty dev attr w e Hfile). auto.
  - exists 0. rewrite (show_missing dev attr w Hfile). auto.
Qed.

Lemma same_state_refl w : same_state w w.
Proof. repeat split. Qed.

(** X3.  Each of the three attributes of [gpu_temp_attrs] follows the
    sysfs convention: its [show] callback returns the number of bytes it
    stored, between 2 and 12, never an error code; the text ends with a
    newline; nothing but the record of VFS calls changes; and the
    attribute's mode has no write permission bit. *)
Theorem gpu_temp_attrs_convention a dev w :
  a ∈ gpu_temp_attrs ->
  let r := show a dev (dev_attr a) w in
  snd (fst r) = Z.of_nat (length (fst (fst r))) /\
  2 <= snd (fst r) <= 12 /\
  last (fst (fst r)) = Some LF /\
  same_state w (snd r) /\
  attr_name (dev_attr a) ∈ attr_names /\
  Z.land (attr_mode (dev_attr a)) S_IWUGO = 0.
Proof.
  unfold gpu_temp_attrs. rewrite !elem_of_cons, elem_of_nil.
  intros [-> | [-> | [-> | []]]]; cbv zeta;
    cbn [show dev_attr sensor_dev_attr_temp1_input
         sensor_dev_attr_temp1_max sensor_dev_attr_temp1_crit
         attr_name attr_mode].
  - destruct (show_value w dev (DeviceAttribute "temp1_input" S_IRUGO))
      as (v & Hv & E).
    pose proof (show_same_state w dev (DeviceAttribute "temp1_input" S_IRUGO))
      as Hsame.
    pose proof (fmt_d_length v Hv) as Hlen.
    rewrite E. cbn [fst snd]. rewrite length_app. cbn [length].
    split_and!; try reflexivity; try lia.
    + apply last_snoc.
    + exact Hsame.
    + unfold attr_names. repeat constructor.
  - cbn. split_and!; try reflexivity; try lia.
    + apply same_state_refl.
    + unfold attr_names. repeat constructor.
  - cbn. split_and!; try reflexivity; try lia.
    + apply same_state_refl.
    + unfold attr_names. repeat constructor.
Qed.

Lemma gpu_temp_attrs_convention_input :
  let w := world_with (Regular (lit "-2147483648" ++ [LF])) in
  let r := show sensor_dev_attr_temp1_input dev0
             (dev_attr sensor_dev_attr_temp1_input) w in
  sensor_dev_attr_temp1_input ∈ gpu_temp_attrs /\
  fst r = (lit "-2147483648" ++ [LF], 12) /\
  snd (fst r) = Z.of_nat (length (fst (fst r))) /\
  2 <= snd (fst r) <= 12 /\
  last (fst (fst r)) = Some LF /\
  same_state w (snd r) /\
  attr_name (dev_attr sensor_dev_attr_temp1_input) ∈ attr_names /\
  Z.land (attr_mode (dev_attr sensor_dev_attr_temp1_input)) S_IWUGO = 0.
Proof.
  cbv zeta.
  assert (H : sensor_dev_attr_temp1_input ∈ gpu_temp_attrs) by (left).
  split; [exact H |]. split; [vm_compute; reflexivity |].
  exact (gpu_temp_attrs_convention sensor_dev_attr_temp1_input dev0
           (world_with (Regular (lit "-2147483648" ++ [LF]))) H).
Defined.

(** * The stack array *)

Lemma kernel_read_bytes fp count pos w ret bytes pos' w' :
  kernel_read fp count pos w = (ret, bytes, pos', w') ->
  0 < ret ->
  ret = Z.of_nat (length bytes) /\ (length bytes <= Z.to_nat count)%nat.
Proof.
  unfold kernel_read, kbind, kret, log_event, kmodify, EINVAL.
  destruct fp as [| e | f]; try (intros [= <- _ _ _]; lia).
  destruct (Z.land (f_flags f) O_ACCMODE =? O_WRONLY);
    [intros [= <- _ _ _]; lia |].
  destruct (f_inode f) as [data | e | e]; try (intros [= <- _ _ _]; lia).
  intros [= <- <- _ _] _. split; [reflexivity |].
  rewrite length_take. lia.
Qed.

Lemma terminated_in_place (g chunk : list ascii) :
  length g = Z.to_nat sizeof_temp_str ->
  (length chunk <= Z.to_nat (sizeof_temp_str - 1))%nat ->
  exists tail,
    <[Z.to_nat (Z.of_nat (length chunk)) := NUL]>
      (chunk ++ drop (length chunk) g)
    = chunk ++ NUL :: tail.
Proof.
  change (Z.to_nat sizeof_temp_str) with 16%nat.
  change (Z.to_nat (sizeof_temp_str - 1)) with 15%nat.
  intros Hg Hlen. rewrite Nat2Z.id.
  destruct (drop (length chunk) g) as [| c t] eqn:E.
  - apply (f_equal (@length ascii)) in E. rewrite length_drop in E.
    cbn [length] in E. lia.
  - exists t. rewrite insert_app_r_alt by lia. rewrite Nat.sub_diag. reflexivity.
Qed.

(** X7.  The terminator is stored inside the array and what the stack
    held does not show: for every initial content of the 16-byte array
    [temp_str], the callback that keeps the array, stores the bytes read
    at its start and sets [temp_str[ret]] in place behaves exactly as
    [temp1_input_show], in its result and in the state it leaves. *)
Theorem temp1_input_show_raw_eq temp_str dev attr w :
  length temp_str = Z.to_nat sizeof_temp_str ->
  temp1_input_show_raw temp_str dev attr w = temp1_input_show dev attr w.
Proof.
  intros Hg. unfold temp1_input_show_raw, temp1_input_show, kbind.
  destruct (filp_open TEMP_FILE O_RDONLY 0 w) as [fp w1].
  destruct (IS_ERR fp); [reflexivity |].
  destruct (kernel_read fp (sizeof_temp_str - 1) 0 w1)
    as [[[ret bytes] pos'] w2] eqn:Hread.
  destruct (filp_close fp NULL w2) as [z w3].
  destruct (Z.ltb_spec 0 ret) as [Hpos | Hle]; [| reflexivity].
  destruct (kernel_read_bytes _ _ _ _ _ _ _ _ Hread Hpos) as [-> Hlen].
  destruct (terminated_in_place temp_str bytes Hg Hlen) as (tail & ->).
  rewrite kstrtoint_tail; [reflexivity |].
  change (Z.to_nat (sizeof_temp_str - 1)) with 15%nat in Hlen. lia.
Qed.

Lemma temp1_input_show_raw_dirty_stack :
  let temp_str := lit "9999999999999999" in
  let w := world_with (Regular (lit "42000" ++ [LF])) in
  length temp_str = Z.to_nat sizeof_temp_str /\
  fst (temp1_input_show_raw temp_str dev0 attr0 w) = (lit "42000" ++ [LF], 6) /\
  temp1_input_show_raw temp_str dev0 attr0 w = temp1_input_show dev0 attr0 w.
Proof.
  cbv zeta.
  assert (H : length (lit "9999999999999999") = Z.to_nat sizeof_temp_str)
    by reflexivity.
  split; [exact H |]. split; [vm_compute; reflexivity |].
  exact (temp1_input_show_raw_eq _ dev0 attr0
           (world_with (Regular (lit "42000" ++ [LF]))) H).
Defined.

(** * Attach and detach, step by step *)

(** The state a successful attach leaves, field by field. *)
Lemma gpu_temp_init_ok w :
  unregistered w ->
  drv_reg (host_cfg w) = None -> dev_reg (host_cfg w) = None ->
  gpu_temp_init w
  = (0,
     World (vfs w) (nr_open w) (trace w)
       (DRIVER_NAME :: drivers w) (the_device :: devices w)
       (match hwmon_reg (host_cfg w) with
        | None => the_hwmon :: hwmons w
        | Some _ => hwmons w
        end)
       (Ptr the_device)
       (match hwmon_reg (host_cfg w) with
        | None => Ptr the_hwmon
        | Some e => ERR_PTR (Z.neg e)
        end)
       (klog w ++ [msg_loaded]) (host_cfg w)).
Proof.
  intros (Hdrv & Hdev & Hhw) Hreg1 Hreg2.
  pose proof (own_hwmons_of_device w Hhw) as Hfilter.
  assert (Hfresh : the_device ∉ devices w)
    by (apply (filter_nil_not_elem_of _ _ _ Hdev); reflexivity).
  unfold gpu_temp_init, kbind.
  rewrite (platform_driver_register_done w Hreg1 Hdrv Hdev).
  cbn [Z.eqb negb].
  unfold platform_device_register_simple, kbind, kget. fold the_device.
  destruct w as [v n t drvs devs hws p hp kl h].
  cbn [host_cfg set_drivers devices drivers hwmons vfs nr_open trace klog] in *.
  rewrite Hreg2. rewrite decide_False by exact Hfresh.
  unfold kmodify.
  cbn [host_cfg set_drivers set_devices devices drivers hwmons vfs nr_open
       trace klog].
  rewrite decide_True by left.
  change (driver_table DRIVER_NAME) with (Some gpu_temp_driver).
  unfold really_probe, kbind, kret. cbn [drv_probe gpu_temp_driver].
  unfold gpu_temp_probe, devm_hwmon_device_register_with_groups,
    kbind, kget, kmodify, kret.
  cbn [host_cfg set_devices set_drivers]. destruct (hwmon_reg h) as [e |].
  - unfold devres_release_all, kmodify, printk, kmodify, msg_loaded.
    cbn [PTR_ERR_OR_ZERO IS_ERR PTR_ERR Z.eqb set_hwmon_dev set_hwmons
         set_pdev set_klog set_devices set_drivers hwmons klog vfs nr_open
         trace drivers devices pdev hwmon_dev host_cfg].
    rewrite Hfilter. reflexivity.
  - reflexivity.
Qed.

(** X8.  When the host accepts the three registrations, [gpu_temp_init]
    returns 0 and has added exactly one driver named [DRIVER_NAME], one
    platform device of that name with id -1 and, under it, one hwmon
    device named "gpu_max_temp" with the attributes temp1_input,
    temp1_max and temp1_crit; [pdev] and [hwmon_dev] point at the new
    device and hwmon device; one line is logged; the file system, the
    open files and the other registrations are as before. *)
Theorem gpu_temp_init_registers w :
  unregistered w ->
  host_cfg w = host_ok ->
  exists w',
    gpu_temp_init w = (0, w') /\
    drivers w' = DRIVER_NAME :: drivers w /\
    devices w' = the_device :: devices w /\
    hwmons w' = the_hwmon :: hwmons w /\
    the_hwmon = HwmonDevice (PlatformDevice DRIVER_NAME (-1)) "gpu_max_temp"
                  attr_names /\
    pdev w' = Ptr the_device /\ hwmon_dev w' = Ptr the_hwmon /\
    klog w' = klog w ++ [msg_loaded] /\
    vfs w' = vfs w /\ nr_open w' = nr_open w /\ trace w' = trace w.
Proof.
  intros Hun Hhost.
  rewrite (gpu_temp_init_ok w Hun) by (rewrite Hhost; reflexivity).
  rewrite Hhost. cbn [hwmon_reg host_ok].
  eexists. split; [reflexivity |]. cbn. split_and!; reflexivity.
Qed.

Lemma gpu_temp_init_registers_fresh :
  unregistered world_without /\ host_cfg world_without = host_ok /\
  exists w',
    gpu_temp_init world_without = (0, w') /\
    drivers w' = DRIVER_NAME :: drivers world_without /\
    devices w' = the_device :: devices world_without /\
    hwmons w' = the_hwmon :: hwmons world_without /\
    the_hwmon = HwmonDevice (PlatformDevice DRIVER_NAME (-1)) "gpu_max_temp"
                  attr_names /\
    pdev w' = Ptr the_device /\ hwmon_dev w' = Ptr the_hwmon /\
    klog w' = klog world_without ++ [msg_loaded] /\
    vfs w' = vfs world_without /\ nr_open w' = nr_open world_without /\
    trace w' = trace world_without.
Proof.
  assert (H1 : unregistered world_without) by (repeat split).
  assert (H2 : host_cfg world_without = host_ok) by reflexivity.
  split; [exact H1 |]. split; [exact H2 |].
  exact (gpu_temp_init_registers world_without H1 H2).
Defined.

(** X9.  A failure of the hwmon registration in [gpu_temp_probe] is not
    reported by [gpu_temp_init]: with the driver and the device accepted
    by the host, [gpu_temp_init] returns 0 and logs the module as loaded
    although no hwmon device was registered; [hwmon_dev] is left holding
    the error pointer. *)
Theorem gpu_temp_init_hides_probe_failure w e :
  unregistered w ->
  drv_reg (host_cfg w) = None -> dev_reg (host_cfg w) = None ->
  hwmon_reg (host_cfg w) = Some e ->
  exists w',
    gpu_temp_init w = (0, w') /\
    drivers w' = DRIVER_NAME :: drivers w /\
    devices w' = the_device :: devices w /\
    hwmons w' = hwmons w /\
    pdev w' = Ptr the_device /\ hwmon_dev w' = ERR_PTR (Z.neg e) /\
    klog w' = klog w ++ [msg_loaded].
Proof.
  intros Hun H1 H2 H3. rewrite (gpu_temp_init_ok w Hun H1 H2). rewrite H3.
  eexists. split; [reflexivity |]. cbn. split_and!; reflexivity.
Qed.

Lemma gpu_temp_init_hides_enomem :
  let w := world0 ∅ (Host None None (Some 12%positive)) in
  unregistered w /\
  drv_reg (host_cfg w) = None /\ dev_reg (host_cfg w) = None /\
  hwmon_reg (host_cfg w) = Some 12%positive /\
  exists w',
    gpu_temp_init w = (0, w') /\
    drivers w' = DRIVER_NAME :: drivers w /\
    devices w' = the_device :: devices w /\
    hwmons w' = hwmons w /\
    pdev w' = Ptr the_device /\ hwmon_dev w' = ERR_PTR (-12) /\
    klog w' = klog w ++ [msg_loaded].
Proof.
  cbv zeta.
  assert (H0 : unregistered (world0 ∅ (Host None None (Some 12%positive))))
    by (repeat split).
  split; [exact H0 |]. split; [reflexivity |]. split; [reflexivity |].
  split; [reflexivity |].
  exact (gpu_temp_init_hides_probe_failure _ 12%positive H0
           eq_refl eq_refl eq_refl).
Defined.

Lemma gpu_temp_init_nonpositive w : fst (gpu_temp_init w) <= 0.
Proof.
  unfold gpu_temp_init, kbind.
  destruct (platform_driver_register gpu_temp_driver w) as [r w1] eqn:E1.
  destruct (platform_driver_register_inv w r w1 E1) as [[Hr _] | [-> _]].
  - destruct (Z.eqb_spec r 0); [lia |]. cbn. lia.
  - cbn [Z.eqb negb].
    destruct (platform_device_register_simple driver_table DRIVER_NAME (-1)
                NULL 0 w1) as [p w2] eqn:E2.
    unfold kmodify. destruct p as [| e | d]; cbn [IS_ERR].
    + unfold printk, kmodify, kret. cbn. lia.
    + destruct (platform_driver_unregister gpu_temp_driver (set_pdev _ w2)).
      cbn. destruct (platform_device_register_inv w1 e) as [He _];
        [rewrite E2; reflexivity | lia].
    + unfold printk, kmodify, kret. cbn. lia.
Qed.

(** X11.  [gpu_temp_init] follows the 0/-errno convention: its result is
    never positive; and, called when nothing of the provider is
    registered, it returns 0 exactly when the host accepts both the
    driver and the device, whatever becomes of the hwmon registration. *)
Theorem gpu_temp_init_result w :
  fst (gpu_temp_init w) <= 0 /\
  (unregistered w ->
   (fst (gpu_temp_init w) = 0 <->
    drv_reg (host_cfg w) = None /\ dev_reg (host_cfg w) = None)).
Proof.
  split; [apply gpu_temp_init_nonpositive |].
  intros Hun. pose proof Hun as (Hdrv & Hdev & Hhw). split.
  - intros Hzero.
    destruct (drv_reg (host_cfg w)) as [e |] eqn:H1.
    { assert (Hf : attach_fails w (Z.neg e)).
      { apply driver_step_fails; [| lia].
        now rewrite (platform_driver_register_failed w e H1). }
      destruct (gpu_temp_init_failure w _ Hun Hf) as (w' & E & _).
      rewrite E in Hzero. cbn in Hzero. lia. }
    destruct (dev_reg (host_cfg w)) as [e |] eqn:H2; [| auto].
    assert (Hf : attach_fails w (Z.neg e)).
    { apply (device_step_fails w _ _
               (platform_driver_register_done w H1 Hdrv Hdev)).
      unfold platform_device_register_simple, kbind, kget.
      replace (dev_reg (host_cfg (set_drivers (DRIVER_NAME :: drivers w) w)))
        with (Some e) by (destruct w; symmetry; exact H2).
      reflexivity. }
    destruct (gpu_temp_init_failure w _ Hun Hf) as (w' & E & _).
    rewrite E in Hzero. cbn in Hzero. lia.
  - intros [H1 H2]. rewrite (gpu_temp_init_ok w Hun H1 H2). reflexivity.
Qed.

Lemma filter_other_id {A} `{!EqDecision A} (x : A) (l : list A) :
  x ∉ l -> filter (fun y => y <> x) l = l.
Proof.
  induction l as [| y l IH]; [reflexivity |].
  rewrite not_elem_of_cons. intros [Hne Hl].
  rewrite filter_cons_True by congruence. f_equal. auto.
Qed.

(** X10.  Attach followed by detach undoes itself: when
    [gpu_temp_init], called with nothing of the provider registered,
    returns 0, the [gpu_temp_exit] that follows leaves the registries of
    drivers, platform devices and hwmon devices exactly as they were
    before the attach, whether or not the probe had registered the hwmon
    device.  The two lines are logged, and the file system is not
    touched.  The global [pdev] is not reset: it still holds the pointer
    to the device that is no longer registered. *)
Theorem gpu_temp_init_exit w w1 :
  unregistered w ->
  gpu_temp_init w = (0, w1) ->
  exists w2,
    gpu_temp_exit w1 = (tt, w2) /\
    drivers w2 = drivers w /\ devices w2 = devices w /\
    hwmons w2 = hwmons w /\
    vfs w2 = vfs w /\ nr_open w2 = nr_open w /\ trace w2 = trace w /\
    klog w2 = klog w ++ [msg_loaded; msg_unloaded] /\
    pdev w2 = Ptr the_device /\ hwmon_dev w2 = hwmon_dev w1.
Proof.
  intros Hun Hinit. pose proof Hun as (Hdrv & Hdev & Hhw).
  assert (Hhost : drv_reg (host_cfg w) = None /\ dev_reg (host_cfg w) = None).
  { destruct (drv_reg (host_cfg w)) as [e |] eqn:H1.
    { assert (Hf : attach_fails w (Z.neg e)).
      { apply driver_step_fails; [| lia].
        now rewrite (platform_driver_register_failed w e H1). }
      destruct (gpu_temp_init_failure w _ Hun Hf) as (w' & E & _).
      rewrite E in Hinit. injection Hinit as Hz _. lia. }
    destruct (dev_reg (host_cfg w)) as [e |] eqn:H2; [| auto].
    assert (Hf : attach_fails w (Z.neg e)).
    { apply (device_step_fails w _ _
               (platform_driver_register_done w H1 Hdrv Hdev)).
      unfold platform_device_register_simple, kbind, kget.
      replace (dev_reg (host_cfg (set_drivers (DRIVER_NAME :: drivers w) w)))
        with (Some e) by (destruct w; symmetry; exact H2).
      reflexivity. }
    destruct (gpu_temp_init_failure w _ Hun Hf) as (w' & E & _).
    rewrite E in Hinit. injection Hinit as Hz _. lia. }
  destruct Hhost as [H1 H2].
  rewrite (gpu_temp_init_ok w Hun H1 H2) in Hinit. injection Hinit as <-.
  pose proof (own_hwmons_of_device w Hhw) as Hfilter.
  assert (Hfresh : the_device ∉ devices w)
    by (apply (filter_nil_not_elem_of _ _ _ Hdev); reflexivity).
  assert (Hdevs : filter (fun d => d <> the_device) (the_device :: devices w)
                  = devices w).
  { rewrite filter_cons_False by (intros Hne; now apply Hne).
    apply filter_other_id, Hfresh. }
  assert (Hhws : filter (fun hd => hw_parent hd <> the_device)
                   (match hwmon_reg (host_cfg w) with
                    | None => the_hwmon :: hwmons w
                    | Some _ => hwmons w
                    end) = hwmons w).
  { destruct (hwmon_reg (host_cfg w)); [exact Hfilter |].
    rewrite filter_cons_False by (intros Hne; now apply Hne). exact Hfilter. }
  unfold gpu_temp_exit, kbind, kget. cbn [pdev].
  unfold platform_device_unregister, devres_release_all, kbind, kmodify.
  cbn [hwmons devices set_hwmons set_devices vfs nr_open trace drivers pdev
       hwmon_dev klog host_cfg].
  rewrite Hdevs, Hhws.
  rewrite platform_driver_unregister_idle by exact Hdev.
  unfold printk, kmodify. eexists. split; [reflexivity |].
  cbn [set_klog set_drivers drivers devices hwmons vfs nr_open trace klog
       pdev hwmon_dev host_cfg].
  split_and!; try reflexivity.
  - apply filter_own_driver, Hdrv.
  - cbn [klog set_devices set_hwmons]. rewrite <- app_assoc. reflexivity.
Qed.

Lemma gpu_temp_init_exit_fresh :
  let w1 := snd (gpu_temp_init world_without) in
  unregistered world_without /\
  gpu_temp_init world_without = (0, w1) /\
  exists w2,
    gpu_temp_exit w1 = (tt, w2) /\
    drivers w2 = drivers world_without /\ devices w2 = devices world_without /\
    hwmons w2 = hwmons world_without /\
    vfs w2 = vfs world_without /\ nr_open w2 = nr_open world_without /\
    trace w2 = trace world_without /\
    klog w2 = klog world_without ++ [msg_loaded; msg_unloaded] /\
    pdev w2 = Ptr the_device /\ hwmon_dev w2 = hwmon_dev w1.
Proof.
  cbv zeta.
  assert (H1 : unregistered world_without) by (repeat split).
  assert (H2 : gpu_temp_init world_without
               = (0, snd (gpu_temp_init world_without))) by reflexivity.
  split; [exact H1 |]. split; [exact H2 |].
  exact (gpu_temp_init_exit world_without _ H1 H2).
Defined.

(** X12.  The contract of [gpu_temp_probe]: it returns
    [PTR_ERR_OR_ZERO] of what it stored in [hwmon_dev], never a positive
    value.  When it returns 0 it has registered one hwmon device named
    "gpu_max_temp" under the platform device it was given, with the
    attributes temp1_input, temp1_max and temp1_crit in this order, and
    [hwmon_dev] points at it; when it returns an error it has registered
    nothing.  It never touches the driver or device registry, [pdev] or
    the file system. *)
Theorem gpu_temp_probe_contract pd w :
  let r := fst (gpu_temp_probe pd w) in
  let w' := snd (gpu_temp_probe pd w) in
  r = PTR_ERR_OR_ZERO (hwmon_dev w') /\ r <= 0 /\
  (r = 0 ->
   hwmons w' = HwmonDevice pd "gpu_max_temp" attr_names :: hwmons w /\
   hwmon_dev w' = Ptr (HwmonDevice pd "gpu_max_temp" attr_names)) /\
  (r < 0 -> hwmons w' = hwmons w /\ IS_ERR (hwmon_dev w') = true) /\
  drivers w' = drivers w /\ devices w' = devices w /\ pdev w' = pdev w /\
  vfs w' = vfs w /\ nr_open w' = nr_open w /\ trace w' = trace w /\
  klog w' = klog w.
Proof.
  cbv zeta.
  unfold gpu_temp_probe, devm_hwmon_device_register_with_groups,
    kbind, kget, kmodify, kret.
  destruct w as [v n t drvs devs hws p hp kl h]. cbn [host_cfg].
  destruct (hwmon_reg h) as [e |]; cbn.
  - split_and!; try reflexivity; try lia;
      intros H; first [lia | split; reflexivity].
  - split_and!; try reflexivity; try lia;
      intros H; first [lia | split; reflexivity].
Qed.
